(** * Restaurant monorepo: role-based access control and the order API

    A shallow embedding of
    - [shared-types]: the closed enumerations and the [ROLE_PERMISSIONS] table,
    - [rbac]: the permission helpers and the navigation filter,
    - [api]: the [authorize] middleware, the zod request schemas, the
      mongoose order schema and the order controllers
      ([createOrder], [updateOrderStatus]),
    followed by the properties proved about them.

    JavaScript numbers are IEEE 754 doubles and are modelled by Rocq's
    primitive [float]; a JavaScript string is modelled by the byte string
    of its UTF-8 encoding; dates are milliseconds since the epoch ([Z]);
    MongoDB ObjectIds are their 96-bit values ([N]); a collection is a
    finite map from [_id] to document. *)

From Stdlib Require Import Floats ZArith NArith Ascii String DecimalString.
From stdpp Require Import base option list strings gmap.

Open Scope string_scope.

(** ** JavaScript results: a value, or a thrown [TypeError] *)

Module Js.

Inductive Error := TypeError.

Inductive t (A : Type) : Type :=
| Return (a : A)
| Throw (e : Error).
Arguments Return {A} a.
Arguments Throw {A} e.

Definition bind {A B} (m : t A) (k : A -> t B) : t B :=
  match m with
  | Return a => k a
  | Throw e => Throw e
  end.

(** [xs.some(cb)]: left to right, stops at the first [true]; an
    exception raised by the callback propagates. *)
Fixpoint some {A} (cb : A -> t bool) (xs : list A) : t bool :=
  match xs with
  | [] => Return false
  | x :: rest => bind (cb x) (fun b => if b then Return true else some cb rest)
  end.

(** [xs.every(cb)]: left to right, stops at the first [false]. *)
Fixpoint every {A} (cb : A -> t bool) (xs : list A) : t bool :=
  match xs with
  | [] => Return true
  | x :: rest => bind (cb x) (fun b => if b then every cb rest else Return false)
  end.

(** [xs.filter(cb)]: keeps the elements on which the callback is truthy,
    in order. *)
Fixpoint filter {A} (cb : A -> t bool) (xs : list A) : t (list A) :=
  match xs with
  | [] => Return []
  | x :: rest =>
      bind (cb x) (fun b =>
      bind (filter cb rest) (fun kept =>
      Return (if b then x :: kept else kept)))
  end.

(** [xs.includes(x)] on an array of enumeration members. *)
Definition includes {A} `{EqDecision A} (xs : list A) (x : A) : bool :=
  bool_decide (x ∈ xs).

End Js.

(** ** shared-types *)

Module SharedTypes.

Inductive OrderStatus := pending | preparing | ready | served | cancelled.

Inductive UserRole := owner | manager | chef | waiter.

Inductive Permission :=
| VIEW_ORDERS
| UPDATE_ORDER_STATUS
| MANAGE_MENU
| VIEW_REPORTS
| MANAGE_STAFF
| PROCESS_PAYMENTS
| VIEW_CUSTOMER_DATA.

#[global] Instance OrderStatus_eq_dec : EqDecision OrderStatus.
Proof. solve_decision. Defined.
#[global] Instance UserRole_eq_dec : EqDecision UserRole.
Proof. solve_decision. Defined.
#[global] Instance Permission_eq_dec : EqDecision Permission.
Proof. solve_decision. Defined.

(** The string each role is at run time. *)
Definition roleKey (r : UserRole) : string :=
  match r with
  | owner => "owner"
  | manager => "manager"
  | chef => "chef"
  | waiter => "waiter"
  end.

Definition allRoles : list UserRole := [owner; manager; chef; waiter].

(** The member of [UserRole] a run-time string denotes, if any. *)
Definition parseRole (k : string) : option UserRole :=
  List.find (fun r => String.eqb (roleKey r) k) allRoles.

(** [ROLE_PERMISSIONS : Record<UserRole, Permission[]>] *)
Definition ROLE_PERMISSIONS (r : UserRole) : list Permission :=
  match r with
  | owner =>
      [VIEW_ORDERS; UPDATE_ORDER_STATUS; MANAGE_MENU; VIEW_REPORTS;
       MANAGE_STAFF; PROCESS_PAYMENTS; VIEW_CUSTOMER_DATA]
  | manager =>
      [VIEW_ORDERS; UPDATE_ORDER_STATUS; VIEW_REPORTS; PROCESS_PAYMENTS;
       VIEW_CUSTOMER_DATA]
  | chef => [VIEW_ORDERS; UPDATE_ORDER_STATUS]
  | waiter => [VIEW_ORDERS; UPDATE_ORDER_STATUS; VIEW_CUSTOMER_DATA]
  end.

(** What the property access [ROLE_PERMISSIONS[key]] evaluates to for an
    arbitrary run-time string: TypeScript's [UserRole] is erased, and the
    table is an object literal, so a key that is not a role is either
    [undefined] or a member inherited from [Object.prototype]. *)
Inductive Property :=
| Own (ps : list Permission)
| Inherited
| Undefined.

Definition objectPrototypeKeys : list string :=
  ["constructor"; "__proto__"; "hasOwnProperty"; "isPrototypeOf";
   "propertyIsEnumerable"; "toLocaleString"; "toString"; "valueOf";
   "__defineGetter__"; "__defineSetter__"; "__lookupGetter__";
   "__lookupSetter__"].

Definition ROLE_PERMISSIONS_at (key : string) : Property :=
  match parseRole key with
  | Some r => Own (ROLE_PERMISSIONS r)
  | None =>
      if List.existsb (String.eqb key) objectPrototypeKeys
      then Inherited else Undefined
  end.

End SharedTypes.

(** ** rbac *)

Module Rbac.
Import SharedTypes.

(** [rolePermissions.includes(permission)] where [rolePermissions] is the
    result of the table lookup: a [TypeError] when it is [undefined] (no
    properties can be read) or an inherited non-array member (it has no
    [includes]). *)
Definition hasPermission (userRole : string) (permission : Permission)
  : Js.t bool :=
  match ROLE_PERMISSIONS_at userRole with
  | Own rolePermissions => Js.Return (Js.includes rolePermissions permission)
  | Inherited | Undefined => Js.Throw Js.TypeError
  end.

Definition hasAnyPermission (userRole : string) (permissions : list Permission)
  : Js.t bool :=
  Js.some (fun permission => hasPermission userRole permission) permissions.

Definition hasAllPermissions (userRole : string) (permissions : list Permission)
  : Js.t bool :=
  Js.every (fun permission => hasPermission userRole permission) permissions.

(** The value of [ROLE_PERMISSIONS[userRole] || []]: every own or
    inherited member is truthy, [undefined] is not. *)
Inductive RolePermissionsValue :=
| PermissionArray (ps : list Permission)
| PrototypeMember.

Definition getRolePermissions (userRole : string) : RolePermissionsValue :=
  match ROLE_PERMISSIONS_at userRole with
  | Own ps => PermissionArray ps
  | Inherited => PrototypeMember
  | Undefined => PermissionArray []
  end.

Record NavigationItem := {
  name : string;
  href : string;
  icon : string;
  permission : Permission;
  roles : list UserRole;
}.

(** [item.roles.includes(userRole)] for a run-time string. *)
Definition rolesInclude (rs : list UserRole) (userRole : string) : bool :=
  List.existsb (fun r => String.eqb (roleKey r) userRole) rs.

(** The filter of [getNavigationItems] over an arbitrary master list;
    [&&] evaluates its right operand only when the left one is true. *)
Definition filterNavItems (items : list NavigationItem) (userRole : string)
  : Js.t (list NavigationItem) :=
  Js.filter
    (fun item =>
       if rolesInclude (roles item) userRole
       then hasPermission userRole (permission item)
       else Js.Return false)
    items.

Definition allNavItems : list NavigationItem :=
  [ {| name := "Dashboard"; href := "/dashboard"; icon := "📊";
       permission := VIEW_ORDERS; roles := [owner; manager; chef; waiter] |};
    {| name := "Orders"; href := "/orders"; icon := "📋";
       permission := VIEW_ORDERS; roles := [owner; manager; chef; waiter] |};
    {| name := "Menu"; href := "/menu"; icon := "🍽️";
       permission := MANAGE_MENU; roles := [owner; manager] |};
    {| name := "Staff"; href := "/staff"; icon := "👥";
       permission := MANAGE_STAFF; roles := [owner] |};
    {| name := "Reports"; href := "/reports"; icon := "📈";
       permission := VIEW_REPORTS; roles := [owner; manager] |};
    {| name := "Payments"; href := "/payments"; icon := "💰";
       permission := PROCESS_PAYMENTS; roles := [owner; manager] |} ].

Definition getNavigationItems (userRole : string) : Js.t (list NavigationItem) :=
  filterNavItems allNavItems userRole.

End Rbac.

(** ** database: the mongoose documents and the order schema *)

Module Database.
Import SharedTypes.

Module User.
Record t := {
  _id : N;
  name : string;
  email : string;
  role : string;
  permissions : list Permission;
  isActive : bool;
}.
End User.

(** Of a menu item the order controller reads [name], [price] and
    [available], and [toggleAvailability] writes [available] and, the
    schema having [timestamps: true], [updatedAt]; the remaining paths of
    [menuItemSchema] are neither read nor written by the routes below. *)
Module MenuItem.
Record t := {
  name : string;
  price : float;
  available : bool;
  updatedAt : Z;
}.
End MenuItem.

(** An element of [items]; the [_id] mongoose gives each subdocument is
    left out. *)
Module OrderItem.
Record t := {
  menuItemId : N;
  menuItemName : string;
  quantity : float;
  unitPrice : float;
  totalPrice : float;
  specialInstructions : option string;
}.
End OrderItem.

(** [orderNumber] is a required path that a document just built by
    [new OrderModel(...)] does not have yet ([None]). *)
Module Order.
Record t := {
  _id : N;
  orderNumber : option string;
  tableNumber : float;
  items : list OrderItem.t;
  status : OrderStatus;
  total : float;
  customerName : option string;
  createdBy : option N;
  createdAt : Z;
  updatedAt : Z;
}.
End Order.

(** The two collections the order routes touch. *)
Record Db := {
  orders : gmap N Order.t;
  menuItems : gmap N MenuItem.t;
}.

(** *** ObjectId: 24 hexadecimal digits, either case *)

Definition hexDigit (c : ascii) : option N :=
  let n := N_of_ascii c in
  if (48 <=? n)%N && (n <=? 57)%N then Some (n - 48)%N
  else if (65 <=? n)%N && (n <=? 70)%N then Some (n - 55)%N
  else if (97 <=? n)%N && (n <=? 102)%N then Some (n - 87)%N
  else None.

Fixpoint parseHex (s : string) (acc : N) : option N :=
  match s with
  | EmptyString => Some acc
  | String c rest =>
      match hexDigit c with
      | Some d => parseHex rest (16 * acc + d)%N
      | None => None
      end
  end.

(** [/^[0-9a-fA-F]{24}$/] followed by the cast to an ObjectId. *)
Definition parseObjectId (s : string) : option N :=
  if (String.length s =? 24)%nat then parseHex s 0%N else None.

(** *** Strings: [length] and [trim] *)

(** The UTF-16 code units a byte of a UTF-8 string stands for: a code
    point encoded in four bytes takes two units, any other takes one, and
    both are counted at the lead byte. *)
Definition codeUnits (c : ascii) : nat :=
  let n := N_of_ascii c in
  if (n <? 128)%N then 1
  else if (n <? 192)%N then 0
  else if (n <? 240)%N then 1
  else 2.

(** [s.length] *)
Fixpoint jsLength (s : string) : nat :=
  match s with
  | EmptyString => 0
  | String c rest => codeUnits c + jsLength rest
  end.

(** The code points [String.prototype.trim] strips are the WhiteSpace and
    LineTerminator code points of ECMAScript. Encoded in one byte:
    U+0009 to U+000D and U+0020. *)
Definition isWhiteSpace (c : ascii) : bool :=
  let n := N_of_ascii c in
  ((9 <=? n)%N && (n <=? 13)%N) || (n =? 32)%N.

(** In two bytes: U+00A0. *)
Definition isWhiteSpace2 (c1 c2 : ascii) : bool :=
  (N_of_ascii c1 =? 194)%N && (N_of_ascii c2 =? 160)%N.

(** In three bytes: U+1680, U+2000 to U+200A, U+2028, U+2029, U+202F,
    U+205F, U+3000 and U+FEFF. *)
Definition isWhiteSpace3 (c1 c2 c3 : ascii) : bool :=
  let n1 := N_of_ascii c1 in
  let n2 := N_of_ascii c2 in
  let n3 := N_of_ascii c3 in
  ((n1 =? 225)%N && (n2 =? 154)%N && (n3 =? 128)%N)
  || ((n1 =? 226)%N && (n2 =? 128)%N
      && (((128 <=? n3)%N && (n3 <=? 138)%N)
          || (n3 =? 168)%N || (n3 =? 169)%N || (n3 =? 175)%N))
  || ((n1 =? 226)%N && (n2 =? 129)%N && (n3 =? 159)%N)
  || ((n1 =? 227)%N && (n2 =? 128)%N && (n3 =? 128)%N)
  || ((n1 =? 239)%N && (n2 =? 187)%N && (n3 =? 191)%N).

(** Strips the white space at the head of a list of bytes, given how to
    recognise the two-byte and three-byte white space there. *)
Fixpoint strip (ws2 : ascii -> ascii -> bool)
    (ws3 : ascii -> ascii -> ascii -> bool) (cs : list ascii) : list ascii :=
  match cs with
  | [] => []
  | c1 :: rest1 =>
      if isWhiteSpace c1 then strip ws2 ws3 rest1
      else
        match rest1 with
        | [] => cs
        | c2 :: rest2 =>
            if ws2 c1 c2 then strip ws2 ws3 rest2
            else
              match rest2 with
              | [] => cs
              | c3 :: rest3 =>
                  if ws3 c1 c2 c3 then strip ws2 ws3 rest3 else cs
              end
        end
  end.

Definition trimStart (cs : list ascii) : list ascii :=
  strip isWhiteSpace2 isWhiteSpace3 cs.

(** The end of the string is the head of the reversed list, where the
    bytes of a code point come last byte first. *)
Definition trimEnd (cs : list ascii) : list ascii :=
  List.rev
    (strip (fun c2 c1 => isWhiteSpace2 c1 c2)
       (fun c3 c2 c1 => isWhiteSpace3 c1 c2 c3)
       (List.rev cs)).

(** [s.trim()], the setter of a path with [trim: true]. *)
Definition trim (s : string) : string :=
  string_of_list_ascii (trimEnd (trimStart (list_ascii_of_string s))).

(** *** Schema validators *)

(** [maxLength: [n, ...]] on an optional string path. *)
Definition maxLength (n : nat) (v : option string) : bool :=
  match v with
  | Some s => (jsLength s <=? n)%nat
  | None => true
  end.

(** [required] on a string path rejects the empty string. *)
Definition requiredString (s : string) : bool :=
  negb (String.eqb s "").

(** [required] on a string path that may be absent. *)
Definition required (v : option string) : bool :=
  match v with
  | Some s => requiredString s
  | None => false
  end.

(** [min: [m, ...]] on a number path: [value >= m]. *)
Definition min (m : float) (value : float) : bool := (m <=? value)%float.

Definition orderItemSchema (item : OrderItem.t) : bool :=
  requiredString (OrderItem.menuItemName item)
  && min 1 (OrderItem.quantity item)
  && min 0 (OrderItem.unitPrice item)
  && min 0 (OrderItem.totalPrice item)
  && maxLength 200 (OrderItem.specialInstructions item).

Definition orderSchema (order : Order.t) : bool :=
  required (Order.orderNumber order)
  && min 1 (Order.tableNumber order)
  && (0 <? List.length (Order.items order))%nat
  && List.forallb orderItemSchema (Order.items order)
  && min 0 (Order.total order)
  && maxLength 100 (Order.customerName order).

(** The unique index on [orderNumber]. *)
Definition orderNumberTaken (db : Db) (n : option string) : bool :=
  List.existsb (fun kv => bool_decide (Order.orderNumber kv.2 = n))
    (map_to_list (orders db)).

End Database.

(** ** api: errors, middleware, schemas and order controllers *)

Module Api.
Import SharedTypes Database.

(** *** zod issues *)

Inductive IssuePath :=
| body_tableNumber
| body_items
| body_items_menuItemId (index : nat)
| body_items_quantity (index : nat)
| body_status
| params_id.

Inductive IssueCode := invalid_type | too_small | invalid_string | invalid_enum_value.

Record ZodIssue := { path : IssuePath; code : IssueCode }.

#[global] Instance IssuePath_eq_dec : EqDecision IssuePath.
Proof. solve_decision. Defined.
#[global] Instance IssueCode_eq_dec : EqDecision IssueCode.
Proof. solve_decision. Defined.
#[global] Instance ZodIssue_eq_dec : EqDecision ZodIssue.
Proof. solve_decision. Defined.

(** *** What a request can end in other than its success response

    The [ApiError]s thrown by the middleware and the controllers, and the
    foreign errors [errorHandler] converts. *)
Inductive Failure :=
| Unauthorized                          (* ApiError.unauthorized *)
| Forbidden (required : list Permission) (* ApiError.forbidden *)
| ValidationFailed (issues : list ZodIssue) (* validate: ApiError.badRequest *)
| MenuItemNotFound (menuItemId : string) (* ApiError.notFound *)
| MenuItemUnavailable (name : string)   (* ApiError.badRequest *)
| OrderNotFound                         (* ApiError.notFound *)
| MongooseValidationError               (* error.name === 'ValidationError' *)
| MongooseCastError                     (* error.name === 'CastError' *)
| DuplicateKey                          (* error.code === 11000 *)
| UncaughtTypeError.                    (* any other Error *)

(** [errorHandler]: the status code of the response. *)
Definition errorHandler (err : Failure) : nat :=
  match err with
  | Unauthorized => 401
  | Forbidden _ => 403
  | ValidationFailed _ => 400
  | MenuItemNotFound _ => 404
  | MenuItemUnavailable _ => 400
  | OrderNotFound => 404
  | MongooseValidationError => 400
  | MongooseCastError => 400
  | DuplicateKey => 409
  | UncaughtTypeError => 500
  end.

Inductive Response (A : Type) : Type :=
| Success (data : A)
| Failed (err : Failure).
Arguments Success {A} data.
Arguments Failed {A} err.

(** *** middleware/auth: [authorize]

    [reqUser] is [req.user] as [authenticate] left it; [None] is the
    result of [next()], [Some err] an error on its way to [errorHandler]. *)
Definition authorize (requiredPermissions : list Permission)
    (reqUser : option User.t) : option Failure :=
  match reqUser with
  | None => Some Unauthorized
  | Some user =>
      let userPermissions := ROLE_PERMISSIONS_at (User.role user) in
      let hasAllPermissions :=
        Js.every
          (fun permission =>
             match userPermissions with
             | Own ps => Js.Return (Js.includes ps permission)
             | Inherited | Undefined => Js.Throw Js.TypeError
             end)
          requiredPermissions in
      match hasAllPermissions with
      | Js.Return true => None
      | Js.Return false => Some (Forbidden requiredPermissions)
      | Js.Throw Js.TypeError => Some UncaughtTypeError
      end
  end.

(** *** routes/orders: request bodies and their schemas *)

Module CreateOrderItem.
Record t := {
  menuItemId : string;
  quantity : float;
  specialInstructions : option string;
}.
End CreateOrderItem.

Module CreateOrderRequest.
Record t := {
  tableNumber : float;
  items : list CreateOrderItem.t;
  customerName : option string;
}.
End CreateOrderRequest.

(** [z.number().min(m)] as zod 3 checks it: [NaN] is not a number,
    every other double is; the value is too small when [value < m]. *)
Definition zNumberMin (m : float) (p : IssuePath) (value : float)
  : list ZodIssue :=
  if is_nan value then [ {| path := p; code := invalid_type |} ]
  else if (value <? m)%float then [ {| path := p; code := too_small |} ]
  else [].

(** [z.string().regex(/^[0-9a-fA-F]{24}$/)] *)
Definition zObjectId (p : IssuePath) (value : string) : list ZodIssue :=
  match parseObjectId value with
  | Some _ => []
  | None => [ {| path := p; code := invalid_string |} ]
  end.

Definition createOrderItemSchema (index : nat) (item : CreateOrderItem.t)
  : list ZodIssue :=
  zObjectId (body_items_menuItemId index) (CreateOrderItem.menuItemId item)
  ++ zNumberMin 1 (body_items_quantity index) (CreateOrderItem.quantity item).

(** [createOrderSchema]: issues in the order zod reports them. *)
Definition createOrderSchema (body : CreateOrderRequest.t) : list ZodIssue :=
  zNumberMin 1 body_tableNumber (CreateOrderRequest.tableNumber body)
  ++ (if (List.length (CreateOrderRequest.items body) <? 1)%nat
      then [ {| path := body_items; code := too_small |} ] else [])
  ++ List.concat (imap createOrderItemSchema (CreateOrderRequest.items body)).

(** [z.enum(['pending', 'preparing', 'ready', 'served', 'cancelled'])] *)
Definition parseStatus (s : string) : option OrderStatus :=
  if String.eqb s "pending" then Some pending
  else if String.eqb s "preparing" then Some preparing
  else if String.eqb s "ready" then Some ready
  else if String.eqb s "served" then Some served
  else if String.eqb s "cancelled" then Some cancelled
  else None.

(** *** controllers/orderController *)

(** What a request takes from its environment: the clock, the ObjectId
    generated for a new document and, for the order-number hook, the local
    calendar day of the clock reading, as the digits of its year, month and
    day and as the date of its midnight. *)
Record Env := { now : Z; newId : N; dateStr : string; startOfDay : Z }.

(** The [for (const item of items)] loop of [createOrder], started with
    [total = 0] and [orderItems = []]. *)
Fixpoint createOrderLoop (db : Db) (items : list CreateOrderItem.t)
    (total : float) (orderItems : list OrderItem.t)
  : Response (float * list OrderItem.t) :=
  match items with
  | [] => Success (total, orderItems)
  | item :: rest =>
      match parseObjectId (CreateOrderItem.menuItemId item) with
      | None => Failed MongooseCastError
      | Some menuItemId =>
          match menuItems db !! menuItemId with
          | None => Failed (MenuItemNotFound (CreateOrderItem.menuItemId item))
          | Some menuItem =>
              if negb (MenuItem.available menuItem)
              then Failed (MenuItemUnavailable (MenuItem.name menuItem))
              else
                let itemTotal :=
                  (MenuItem.price menuItem * CreateOrderItem.quantity item)%float in
                createOrderLoop db rest (total + itemTotal)%float
                  (orderItems ++
                   [ {| OrderItem.menuItemId := menuItemId;
                        OrderItem.menuItemName := MenuItem.name menuItem;
                        OrderItem.quantity := CreateOrderItem.quantity item;
                        OrderItem.unitPrice := MenuItem.price menuItem;
                        OrderItem.totalPrice := itemTotal;
                        OrderItem.specialInstructions :=
                          CreateOrderItem.specialInstructions item |} ])
          end
      end
  end.

(** [createOrder] up to [order.save()]: the loop, then
    [new OrderModel({ tableNumber, items: orderItems, total, customerName,
    createdBy: req.user?._id })]. The document has the [_id] generated for
    it, the default [status], its [customerName] trimmed by the setter, and
    no [orderNumber]. [timestamps: true] gives it the date of the save as
    [createdAt] and [updatedAt]; no validator reads them. *)
Definition newOrder (db : Db) (env : Env) (reqUser : option User.t)
    (body : CreateOrderRequest.t) : Response Order.t :=
  match createOrderLoop db (CreateOrderRequest.items body) 0 [] with
  | Failed err => Failed err
  | Success (total, orderItems) =>
      Success
        {| Order._id := newId env;
           Order.orderNumber := None;
           Order.tableNumber := CreateOrderRequest.tableNumber body;
           Order.items := orderItems;
           Order.status := pending;
           Order.total := total;
           Order.customerName := trim <$> CreateOrderRequest.customerName body;
           Order.createdBy := User._id <$> reqUser;
           Order.createdAt := now env;
           Order.updatedAt := now env |}
  end.

(** [n.toString().padStart(3, '0')] *)
Definition padStart3 (n : nat) : string :=
  let digits := NilEmpty.string_of_uint (Nat.to_uint n) in
  match String.length digits with
  | 0 => "000" ++ digits
  | 1 => "00" ++ digits
  | 2 => "0" ++ digits
  | _ => digits
  end.

(** [countDocuments({ createdAt: { $gte: startOfDay } })] *)
Definition countSince (db : Db) (startOfDay : Z) : nat :=
  List.length
    (List.filter (fun kv => (startOfDay <=? Order.createdAt kv.2)%Z)
       (map_to_list (orders db))).

(** The [pre('save')] hook of [orderSchema] on a new document:
    [this.orderNumber = `ORD-${dateStr}-${(count + 1).toString()
    .padStart(3, '0')}`]. *)
Definition orderNumberHook (db : Db) (env : Env) (order : Order.t) : Order.t :=
  let count := countSince db (startOfDay env) in
  {| Order._id := Order._id order;
     Order.orderNumber :=
       Some ("ORD-" ++ dateStr env ++ "-" ++ padStart3 (count + 1));
     Order.tableNumber := Order.tableNumber order;
     Order.items := Order.items order;
     Order.status := Order.status order;
     Order.total := Order.total order;
     Order.customerName := Order.customerName order;
     Order.createdBy := Order.createdBy order;
     Order.createdAt := Order.createdAt order;
     Order.updatedAt := Order.updatedAt order |}.

(** [order.save()] of a new document. Mongoose validates the document
    against the schema first (validation is the first of the [pre('save')]
    hooks), then runs the hooks the schema declares with [pre('save', ...)],
    then inserts under the unique indexes on [_id] and [orderNumber]. *)
Definition save (db : Db) (env : Env) (order : Order.t)
  : Response Order.t * Db :=
  if negb (orderSchema order) then (Failed MongooseValidationError, db)
  else
    let order := orderNumberHook db env order in
    if bool_decide (is_Some (orders db !! Order._id order))
       || orderNumberTaken db (Order.orderNumber order)
    then (Failed DuplicateKey, db)
    else (Success order,
          {| orders := <[Order._id order := order]> (orders db);
             menuItems := menuItems db |}).

Definition createOrder (db : Db) (env : Env) (reqUser : option User.t)
    (body : CreateOrderRequest.t) : Response Order.t * Db :=
  match newOrder db env reqUser body with
  | Failed err => (Failed err, db)
  | Success order => save db env order
  end.

(** [found] with the two paths the update document
    [{ status, updatedAt: new Date() }] writes. *)
Definition withStatus (found : Order.t) (status : OrderStatus) (date : Z)
  : Order.t :=
  {| Order._id := Order._id found;
     Order.orderNumber := Order.orderNumber found;
     Order.tableNumber := Order.tableNumber found;
     Order.items := Order.items found;
     Order.status := status;
     Order.total := Order.total found;
     Order.customerName := Order.customerName found;
     Order.createdBy := Order.createdBy found;
     Order.createdAt := Order.createdAt found;
     Order.updatedAt := date |}.

(** [OrderModel.findByIdAndUpdate(orderId, { status, updatedAt: new Date() },
    { new: true, runValidators: true })]: one atomic write of the two
    paths to the document with that [_id], whatever its current status.
    The response carries the updated document ([populate] fills in the
    menu items for the response only). *)
Definition updateOrderStatus (db : Db) (env : Env) (id : string)
    (status : OrderStatus) : Response Order.t * Db :=
  match parseObjectId id with
  | None => (Failed MongooseCastError, db)
  | Some orderId =>
      match orders db !! orderId with
      | None => (Failed OrderNotFound, db)
      | Some found =>
          let order := withStatus found status (now env) in
          (Success order,
           {| orders := <[orderId := order]> (orders db);
              menuItems := menuItems db |})
      end
  end.

(** *** routes/orders

    [router.use(authenticate)] leaves [req.user]; a request that did not
    authenticate has none. *)

(** [router.post('/', authorize(['VIEW_ORDERS']), validate(createOrderSchema),
    createOrder)] *)
Definition postOrder (db : Db) (env : Env) (reqUser : option User.t)
    (body : CreateOrderRequest.t) : Response Order.t * Db :=
  match authorize [VIEW_ORDERS] reqUser with
  | Some err => (Failed err, db)
  | None =>
      match createOrderSchema body with
      | [] => createOrder db env reqUser body
      | issues => (Failed (ValidationFailed issues), db)
      end
  end.

(** [router.patch('/:id/status', authorize(['UPDATE_ORDER_STATUS']),
    validate({ ...orderParamsSchema, ...updateStatusSchema }),
    updateOrderStatus)]; [validate] parses the body before the params. *)
Definition patchOrderStatus (db : Db) (env : Env) (reqUser : option User.t)
    (id : string) (status : string) : Response Order.t * Db :=
  match authorize [UPDATE_ORDER_STATUS] reqUser with
  | Some err => (Failed err, db)
  | None =>
      match parseStatus status with
      | None =>
          (Failed (ValidationFailed
                     [ {| path := body_status; code := invalid_enum_value |} ]),
           db)
      | Some newStatus =>
          match zObjectId params_id id with
          | [] => updateOrderStatus db env id newStatus
          | issues => (Failed (ValidationFailed issues), db)
          end
      end
  end.

(** *** The API as a transition system on the database

    The menu controllers ([createMenuItem], [updateMenuItem],
    [deleteMenuItem], [toggleAvailability]) write to the menu collection
    only; [WriteMenu] stands for any of them. *)
Inductive Request :=
| PostOrder (env : Env) (reqUser : option User.t) (body : CreateOrderRequest.t)
| PatchOrderStatus (env : Env) (reqUser : option User.t) (id status : string)
| WriteMenu (menu : gmap N MenuItem.t).

Definition handle (db : Db) (req : Request) : Db :=
  match req with
  | PostOrder env reqUser body => (postOrder db env reqUser body).2
  | PatchOrderStatus env reqUser id status =>
      (patchOrderStatus db env reqUser id status).2
  | WriteMenu menu => {| orders := orders db; menuItems := menu |}
  end.

End Api.

(** ** The order-status transition table of the specification

    The table of section 4.2 of the specification, written down as the
    specification words it. The source has no counterpart: it is what
    [updateOrderStatus] is compared with. *)

Module Spec.
Import SharedTypes.

Definition transitionTable : list (OrderStatus * OrderStatus * list UserRole) :=
  [ (pending, preparing, [chef; manager; owner]);
    (pending, cancelled, [waiter; manager; owner]);
    (preparing, ready, [chef; manager; owner]);
    (ready, served, [waiter; manager; owner]) ].

(** The allowed roles of the edge from [from] to [to], if it is one. *)
Definition allowedRoles (from to : OrderStatus) : option (list UserRole) :=
  snd <$> List.find
    (fun edge => bool_decide (edge.1.1 = from) && bool_decide (edge.1.2 = to))
    transitionTable.

Definition isEdge (from to : OrderStatus) : bool :=
  bool_decide (is_Some (allowedRoles from to)).

End Spec.

(** ** A restaurant to run the API on

    The scenario of the specification: table 5 orders two burgers at 10
    and one soda at 5; the soup is off the menu for the day. *)

Module Sample.
Import SharedTypes Database Api.

Definition staff (id : N) (r : UserRole) : User.t :=
  {| User._id := id;
     User.name := roleKey r;
     User.email := roleKey r ++ "@restaurant.com";
     User.role := roleKey r;
     User.permissions := ROLE_PERMISSIONS r;
     User.isActive := true |}.

Definition theChef := staff 3 chef.
Definition theWaiter := staff 4 waiter.

(** A waiter whose stored [permissions] array is the owner's. *)
Definition overGrantedWaiter : User.t :=
  {| User._id := 5;
     User.name := "waiter";
     User.email := "second.waiter@restaurant.com";
     User.role := "waiter";
     User.permissions := ROLE_PERMISSIONS owner;
     User.isActive := true |}.

Definition burger : MenuItem.t :=
  {| MenuItem.name := "Burger"; MenuItem.price := 10;
     MenuItem.available := true; MenuItem.updatedAt := 100 |}.
Definition soda : MenuItem.t :=
  {| MenuItem.name := "Soda"; MenuItem.price := 5;
     MenuItem.available := true; MenuItem.updatedAt := 100 |}.
Definition soup : MenuItem.t :=
  {| MenuItem.name := "Soup"; MenuItem.price := 4.5;
     MenuItem.available := false; MenuItem.updatedAt := 500 |}.

Definition burgerId := "0000000000000000000000a1".
Definition sodaId := "0000000000000000000000a2".
Definition soupId := "0000000000000000000000a3".
Definition missingId := "0000000000000000000000ff".
Definition orderId := "0000000000000000000000b1".

Definition menu : gmap N MenuItem.t :=
  <[161%N := burger]> (<[162%N := soda]> (<[163%N := soup]> ∅)).

Definition emptyDb : Db := {| orders := ∅; menuItems := menu |}.

Definition line (id : string) (q : float) : CreateOrderItem.t :=
  {| CreateOrderItem.menuItemId := id;
     CreateOrderItem.quantity := q;
     CreateOrderItem.specialInstructions := None |}.

Definition request (lines : list CreateOrderItem.t) : CreateOrderRequest.t :=
  {| CreateOrderRequest.tableNumber := 5;
     CreateOrderRequest.items := lines;
     CreateOrderRequest.customerName := None |}.

Definition table5 : CreateOrderRequest.t :=
  request [line burgerId 2; line sodaId 1].


Definition atCreation : Env :=
  {| now := 1000; newId := 177%N; dateStr := "20250101"; startOfDay := 0 |}.
Definition later : Env :=
  {| now := 2000; newId := 178%N; dateStr := "20250101"; startOfDay := 0 |}.
Definition evenLater : Env :=
  {| now := 3000; newId := 179%N; dateStr := "20250101"; startOfDay := 0 |}.

(** The order of table 5 as a document of the collection, in a given
    status. *)
Definition order (s : OrderStatus) : Order.t :=
  {| Order._id := 177%N;
     Order.orderNumber := Some "ORD-20250101-001";
     Order.tableNumber := 5;
     Order.items :=
       [ {| OrderItem.menuItemId := 161%N;
            OrderItem.menuItemName := "Burger";
            OrderItem.quantity := 2;
            OrderItem.unitPrice := 10;
            OrderItem.totalPrice := 20;
            OrderItem.specialInstructions := None |};
         {| OrderItem.menuItemId := 162%N;
            OrderItem.menuItemName := "Soda";
            OrderItem.quantity := 1;
            OrderItem.unitPrice := 5;
            OrderItem.totalPrice := 5;
            OrderItem.specialInstructions := None |} ];
     Order.status := s;
     Order.total := 25;
     Order.customerName := None;
     Order.createdBy := Some 4%N;
     Order.createdAt := 1000;
     Order.updatedAt := 1000 |}.

Definition dbWith (s : OrderStatus) : Db :=
  {| orders := <[177%N := order s]> ∅; menuItems := menu |}.

(** A master navigation list with an entry whose allow-list leaves out
    roles that hold its permission. *)
Definition kitchenOnly : Rbac.NavigationItem :=
  {| Rbac.name := "Kitchen"; Rbac.href := "/kitchen"; Rbac.icon := "K";
     Rbac.permission := UPDATE_ORDER_STATUS; Rbac.roles := [chef] |}.

(** Two requests against the pending order of table 5: the chef asks
    for [preparing], the waiter for [cancelled]; the chef's write lands
    first. *)
Definition chefStarts : Response Order.t * Db :=
  patchOrderStatus (dbWith pending) later (Some theChef) orderId "preparing".
Definition waiterCancels : Response Order.t * Db :=
  patchOrderStatus chefStarts.2 evenLater (Some theWaiter) orderId "cancelled".

(** The day of table 5, whose order is in the collection: the chef
    starts it, then the burger goes up to 12 on the menu. *)
Definition dearerMenu : gmap N MenuItem.t :=
  <[161%N := {| MenuItem.name := "Burger"; MenuItem.price := 12;
                MenuItem.available := true; MenuItem.updatedAt := 2500 |}]>
    menu.

Definition history : list Request :=
  [ PatchOrderStatus later (Some theChef) orderId "preparing";
    WriteMenu dearerMenu ].

Definition endOfDay : Db := List.fold_left handle history (dbWith pending).

End Sample.

(** ** What is stated about orders *)

Module Totals.
Import SharedTypes Database Api.

(** The sum of a list of numbers, taken in list order from 0. Addition of
    doubles rounds, so the order of summation is part of the meaning. *)
Definition sum (xs : list float) : float :=
  List.fold_left PrimFloat.add xs 0%float.




(** The menu item a request line refers to, when there is one. *)
Definition referenced (db : Db) (line : CreateOrderItem.t)
  : option MenuItem.t :=
  parseObjectId (CreateOrderItem.menuItemId line) ≫= (menuItems db !!.).

(** The line refers to a menu item that is available. *)
Definition orderable (db : Db) (line : CreateOrderItem.t) : Prop :=
  exists menuItem,
    referenced db line = Some menuItem /\ MenuItem.available menuItem = true.

End Totals.

(** ** rbac: features, the role hierarchy, data filtering *)

Module RbacFeatures.
Import SharedTypes.

(** The value of [table[key]] for an object literal [table] and a run-time
    string [key]: an own property, a member inherited from
    [Object.prototype], or [undefined]. *)
Inductive Lookup (A : Type) : Type :=
| Found (value : A)
| FromPrototype
| Missing.
Arguments Found {A} value.
Arguments FromPrototype {A}.
Arguments Missing {A}.

Definition ownProperty {A} (table : list (string * A)) (key : string)
  : option A :=
  snd <$> List.find (fun entry => String.eqb entry.1 key) table.

Definition objectLookup {A} (table : list (string * A)) (key : string)
  : Lookup A :=
  match ownProperty table key with
  | Some value => Found value
  | None =>
      if List.existsb (String.eqb key) objectPrototypeKeys
      then FromPrototype else Missing
  end.

Definition featurePermissions : list (string * list Permission) :=
  [ ("dashboard", [VIEW_ORDERS; VIEW_REPORTS]);
    ("orders", [VIEW_ORDERS]);
    ("orderManagement", [UPDATE_ORDER_STATUS]);
    ("menu", [VIEW_ORDERS]);
    ("menuManagement", [MANAGE_MENU]);
    ("staff", [MANAGE_STAFF]);
    ("reports", [VIEW_REPORTS]);
    ("payments", [PROCESS_PAYMENTS]);
    ("customers", [VIEW_CUSTOMER_DATA]) ].

(** [if (!requiredPermissions) return false] lets every inherited member
    through, and none of them has a [some] method. *)
Definition canAccessFeature (userRole feature : string) : Js.t bool :=
  match objectLookup featurePermissions feature with
  | Missing => Js.Return false
  | Found requiredPermissions =>
      Rbac.hasAnyPermission userRole requiredPermissions
  | FromPrototype => Js.Throw Js.TypeError
  end.

Definition features : list string :=
  ["dashboard"; "orders"; "orderManagement"; "menu"; "menuManagement";
   "staff"; "reports"; "payments"; "customers"].

Definition getAvailableFeatures (userRole : string) : Js.t (list string) :=
  Js.filter (fun feature => canAccessFeature userRole feature) features.

Definition hierarchy : list (string * list UserRole) :=
  [ ("owner", [owner; manager; chef; waiter]);
    ("manager", [chef; waiter]);
    ("chef", []);
    ("waiter", []) ].

(** [hierarchy[managerRole]?.includes(targetRole) || false]: the optional
    chain stops at [undefined] only. *)
Definition canManageRole (managerRole targetRole : string) : Js.t bool :=
  match objectLookup hierarchy managerRole with
  | Found managed => Js.Return (Rbac.rolesInclude managed targetRole)
  | Missing => Js.Return false
  | FromPrototype => Js.Throw Js.TypeError
  end.

Definition filterByPermissions {T} (data : list T) (userRole : string)
    (requiredPermission : Permission) : Js.t (list T) :=
  Js.bind (Rbac.hasPermission userRole requiredPermission)
    (fun held => Js.Return (if held then data else [])).

End RbacFeatures.

(** ** owner-dashboard: utils/navigation *)

Module DashboardNavigation.
Import SharedTypes.

Record NavigationItem := {
  name : string;
  href : string;
  icon : string;
  requiredRoles : option (list UserRole);
}.

Definition allNavItems : list NavigationItem :=
  [ {| name := "Dashboard"; href := "/dashboard"; icon := "📊";
       requiredRoles := Some [owner; manager] |};
    {| name := "Kitchen"; href := "/kitchen"; icon := "👨‍🍳";
       requiredRoles := Some [chef; waiter; manager] |};
    {| name := "Orders"; href := "/orders"; icon := "📋";
       requiredRoles := Some [owner; manager; waiter] |};
    {| name := "Menu"; href := "/menu"; icon := "🍽️";
       requiredRoles := Some [owner; manager] |};
    {| name := "Staff"; href := "/staff"; icon := "👥";
       requiredRoles := Some [owner; manager] |};
    {| name := "Reports"; href := "/reports"; icon := "📈";
       requiredRoles := Some [owner; manager] |};
    {| name := "Payments"; href := "/payments"; icon := "💳";
       requiredRoles := Some [owner; manager] |} ].

(** [!item.requiredRoles || item.requiredRoles.includes(userRole)] *)
Definition visible (userRole : string) (item : NavigationItem) : bool :=
  match requiredRoles item with
  | None => true
  | Some rs => Rbac.rolesInclude rs userRole
  end.

Definition getNavigationItems (userRole : string) : list NavigationItem :=
  List.filter (visible userRole) allNavItems.

Definition getDefaultRoute (userRole : string) : string :=
  if String.eqb userRole "chef" || String.eqb userRole "waiter"
  then "/kitchen" else "/dashboard".

(** [navItems.some((item) => route.startsWith(item.href))] *)
Definition canAccessRoute (route userRole : string) : bool :=
  List.existsb (fun item => String.prefix (href item) route)
    (getNavigationItems userRole).

End DashboardNavigation.

(** ** api: the other order routes, the menu routes, the user routes *)

Module Routes.
Import SharedTypes Database.

(** How a request to these routes can fail: with an error of the shared
    middleware or of mongoose, as on the order routes above; with
    [ApiError.notFound(message)]; with an error of the database driver,
    which [errorHandler] answers with 500. *)
Inductive Failure :=
| Thrown (err : Api.Failure)
| NotFound (message : string)
| DriverError.

Definition status (err : Failure) : nat :=
  match err with
  | Thrown err => Api.errorHandler err
  | NotFound _ => 404
  | DriverError => 500
  end.

Inductive Response (A : Type) : Type :=
| Success (data : A)
| Failed (err : Failure).
Arguments Success {A} data.
Arguments Failed {A} err.

(** *** controllers/menuController *)

Definition getMenuItemById (db : Db) (id : string) : Response MenuItem.t :=
  match parseObjectId id with
  | None => Failed (Thrown Api.MongooseCastError)
  | Some menuItemId =>
      match menuItems db !! menuItemId with
      | None => Failed (NotFound "Menu item not found")
      | Some menuItem => Success menuItem
      end
  end.

(** [found] after [menuItem.available = !menuItem.available] and
    [menuItem.save()], which writes the modified path and, the schema
    having [timestamps: true], the date of the save to [updatedAt]. *)
Definition toggled (found : MenuItem.t) (date : Z) : MenuItem.t :=
  {| MenuItem.name := MenuItem.name found;
     MenuItem.price := MenuItem.price found;
     MenuItem.available := negb (MenuItem.available found);
     MenuItem.updatedAt := date |}.

(** [toggleAvailability]. The documents of the collection passed the
    schema when they were written and [available] has no validator, so the
    validation [save()] starts with finds nothing. *)
Definition toggleAvailability (db : Db) (env : Api.Env) (id : string)
  : Response MenuItem.t * Db :=
  match parseObjectId id with
  | None => (Failed (Thrown Api.MongooseCastError), db)
  | Some menuItemId =>
      match menuItems db !! menuItemId with
      | None => (Failed (NotFound "Menu item not found"), db)
      | Some found =>
          let menuItem := toggled found (Api.now env) in
          (Success menuItem,
           {| orders := orders db;
              menuItems := <[menuItemId := menuItem]> (menuItems db) |})
      end
  end.

(** [MenuItemModel.findByIdAndDelete(req.params.id)] *)
Definition deleteMenuItem (db : Db) (id : string) : Response unit * Db :=
  match parseObjectId id with
  | None => (Failed (Thrown Api.MongooseCastError), db)
  | Some menuItemId =>
      match menuItems db !! menuItemId with
      | None => (Failed (NotFound "Menu item not found"), db)
      | Some _ =>
          (Success (),
           {| orders := orders db;
              menuItems := delete menuItemId (menuItems db) |})
      end
  end.

(** *** routes/menu *)

(** [router.get('/:id', validate(menuItemParamsSchema), getMenuItemById)],
    registered before [router.use(authenticate)]. *)
Definition getMenuItem (db : Db) (id : string) : Response MenuItem.t :=
  match Api.zObjectId Api.params_id id with
  | [] => getMenuItemById db id
  | issues => Failed (Thrown (Api.ValidationFailed issues))
  end.

(** [router.patch('/:id/toggle', authorize(['MANAGE_MENU']),
    validate(menuItemParamsSchema), toggleAvailability)] *)
Definition patchToggle (db : Db) (env : Api.Env) (reqUser : option User.t)
    (id : string) : Response MenuItem.t * Db :=
  match Api.authorize [MANAGE_MENU] reqUser with
  | Some err => (Failed (Thrown err), db)
  | None =>
      match Api.zObjectId Api.params_id id with
      | [] => toggleAvailability db env id
      | issues => (Failed (Thrown (Api.ValidationFailed issues)), db)
      end
  end.

(** [router.delete('/:id', authorize(['MANAGE_MENU']),
    validate(menuItemParamsSchema), deleteMenuItem)] *)
Definition deleteMenuItemRoute (db : Db) (reqUser : option User.t)
    (id : string) : Response unit * Db :=
  match Api.authorize [MANAGE_MENU] reqUser with
  | Some err => (Failed (Thrown err), db)
  | None =>
      match Api.zObjectId Api.params_id id with
      | [] => deleteMenuItem db id
      | issues => (Failed (Thrown (Api.ValidationFailed issues)), db)
      end
  end.

(** *** controllers/orderController: reading *)

(** The paths [populate('createdBy', 'name email')] selects of a user. *)
Module Creator.
Record t := {
  _id : N;
  name : string;
  email : string;
}.
End Creator.

(** What [populate] leaves at a path that holds a reference: nothing when
    the document has no such path, [null] when no document has the [_id]
    referred to, and otherwise the selected paths of the document that
    has. *)
Inductive Populated :=
| absent
| null
| populated (creator : Creator.t).

(** An order with [createdBy] populated. *)
Module PopulatedOrder.
Record t := {
  _id : N;
  orderNumber : option string;
  tableNumber : float;
  items : list OrderItem.t;
  status : OrderStatus;
  total : float;
  customerName : option string;
  createdBy : Populated;
  createdAt : Z;
  updatedAt : Z;
}.
End PopulatedOrder.

Definition populateCreatedBy (users : gmap N User.t) (order : Order.t)
  : PopulatedOrder.t :=
  {| PopulatedOrder._id := Order._id order;
     PopulatedOrder.orderNumber := Order.orderNumber order;
     PopulatedOrder.tableNumber := Order.tableNumber order;
     PopulatedOrder.items := Order.items order;
     PopulatedOrder.status := Order.status order;
     PopulatedOrder.total := Order.total order;
     PopulatedOrder.customerName := Order.customerName order;
     PopulatedOrder.createdBy :=
       match Order.createdBy order with
       | None => absent
       | Some userId =>
           match users !! userId with
           | None => null
           | Some user =>
               populated {| Creator._id := User._id user;
                            Creator.name := User.name user;
                            Creator.email := User.email user |}
           end
       end;
     PopulatedOrder.createdAt := Order.createdAt order;
     PopulatedOrder.updatedAt := Order.updatedAt order |}.

(** [OrderModel.findById(req.params.id).populate('items.menuItemId')
    .populate('createdBy', 'name email')]. The first [populate], which
    [updateOrderStatus] applies to its response as well, is left out here
    as it is there. *)
Definition getOrderById (users : gmap N User.t) (db : Db) (id : string)
  : Response PopulatedOrder.t :=
  match parseObjectId id with
  | None => Failed (Thrown Api.MongooseCastError)
  | Some orderId =>
      match orders db !! orderId with
      | None => Failed (NotFound "Order not found")
      | Some order => Success (populateCreatedBy users order)
      end
  end.

(** [router.get('/:id', authorize(['VIEW_ORDERS']),
    validate(orderParamsSchema), getOrderById)] *)
Definition getOrder (users : gmap N User.t) (db : Db)
    (reqUser : option User.t) (id : string) : Response PopulatedOrder.t :=
  match Api.authorize [VIEW_ORDERS] reqUser with
  | Some err => Failed (Thrown err)
  | None =>
      match Api.zObjectId Api.params_id id with
      | [] => getOrderById users db id
      | issues => Failed (Thrown (Api.ValidationFailed issues))
      end
  end.

(** [parseInt(query) || fallback], given what [parseInt] returned: [None]
    for [NaN]. The integers of this section are those a double holds
    exactly, below 2^53. *)
Definition orDefault (parsed : option Z) (fallback : Z) : Z :=
  match parsed with
  | None | Some 0%Z => fallback
  | Some n => n
  end.

(** [Math.ceil(a / b)] for [b <> 0]. *)
Definition ceilDiv (a b : Z) : Z := (- ((- a) / b))%Z.

Record Pagination := {
  page : Z;
  limit : Z;
  totalCount : Z;
  totalPages : Z;
  hasNextPage : bool;
  hasPrevPage : bool;
}.

Record OrdersPage := {
  pageOrders : list Order.t;
  pagination : Pagination;
}.

(** [getOrders], given in [found] the orders that match the filter in the
    order [sort({ createdAt: -1 })] puts them, of which the cursor skips
    [(page - 1) * limit] and returns [limit] (a negative limit counts as
    its absolute value, a negative skip is an error of the driver), and
    which [countDocuments] counts. *)
Definition getOrders (found : list Order.t) (pageQuery limitQuery : option Z)
  : Response OrdersPage :=
  let page := orDefault pageQuery 1 in
  let limit := orDefault limitQuery 10 in
  let skip := ((page - 1) * limit)%Z in
  if (skip <? 0)%Z then Failed DriverError
  else
    let totalCount := Z.of_nat (List.length found) in
    let totalPages := ceilDiv totalCount limit in
    Success
      {| pageOrders :=
           take (Z.to_nat (Z.abs limit)) (drop (Z.to_nat skip) found);
         pagination :=
           {| page := page;
              limit := limit;
              totalCount := totalCount;
              totalPages := totalPages;
              hasNextPage := (page <? totalPages)%Z;
              hasPrevPage := (1 <? page)%Z |} |}.

(** *** middleware/auth: [authenticate], and the user routes

    [decoded] is the [userId] of the verified token; there is none when
    the header or the token is refused. *)
Definition authenticate (users : gmap N User.t) (decoded : option string)
  : Api.Failure + User.t :=
  match decoded with
  | None => inl Api.Unauthorized
  | Some userId =>
      match parseObjectId userId with
      | None => inl Api.MongooseCastError
      | Some id =>
          match users !! id with
          | Some user =>
              if User.isActive user then inr user else inl Api.Unauthorized
          | None => inl Api.Unauthorized
          end
      end
  end.

(** [UserModel.findByIdAndUpdate(userId, { isActive }, ...)] *)
Definition updateUserStatus (users : gmap N User.t) (id : string)
    (isActive : bool) : Response User.t * gmap N User.t :=
  match parseObjectId id with
  | None => (Failed (Thrown Api.MongooseCastError), users)
  | Some userId =>
      match users !! userId with
      | None => (Failed (NotFound "User not found"), users)
      | Some found =>
          let user :=
            {| User._id := User._id found;
               User.name := User.name found;
               User.email := User.email found;
               User.role := User.role found;
               User.permissions := User.permissions found;
               User.isActive := isActive |} in
          (Success user, <[userId := user]> users)
      end
  end.

(** [router.use(authenticate); router.use(authorize(['MANAGE_STAFF']));
    router.patch('/:id/status', validate(...), updateUserStatus)] *)
Definition patchUserStatus (users : gmap N User.t) (decoded : option string)
    (id : string) (isActive : bool) : Response User.t * gmap N User.t :=
  match authenticate users decoded with
  | inl err => (Failed (Thrown err), users)
  | inr user =>
      match Api.authorize [MANAGE_STAFF] (Some user) with
      | Some err => (Failed (Thrown err), users)
      | None =>
          match Api.zObjectId Api.params_id id with
          | [] => updateUserStatus users id isActive
          | issues => (Failed (Thrown (Api.ValidationFailed issues)), users)
          end
      end
  end.

End Routes.

(** ** The staff of the restaurant *)

Module Staff.
Import SharedTypes Database.

Definition users : gmap N User.t :=
  <[1%N := Sample.staff 1 owner]>
    (<[2%N := Sample.staff 2 manager]>
       (<[3%N := Sample.theChef]> (<[4%N := Sample.theWaiter]> ∅))).

Definition managerId := "000000000000000000000002".
Definition chefId := "000000000000000000000003".

End Staff.

(** ** A second table *)

Module Busy.
Import SharedTypes Database Api.

Definition secondId := "0000000000000000000000b2".

(** The order of table 7: three sodas for Ana. *)
Definition table7 : Order.t :=
  {| Order._id := 178%N;
     Order.orderNumber := Some "ORD-20250101-002";
     Order.tableNumber := 7;
     Order.items :=
       [ {| OrderItem.menuItemId := 162%N;
            OrderItem.menuItemName := "Soda";
            OrderItem.quantity := 3;
            OrderItem.unitPrice := 5;
            OrderItem.totalPrice := 15;
            OrderItem.specialInstructions := None |} ];
     Order.status := pending;
     Order.total := 15;
     Order.customerName := Some "Ana";
     Order.createdBy := Some 9%N;
     Order.createdAt := 2000;
     Order.updatedAt := 2000 |}.

(** The collection with the orders of table 5 and table 7. *)
Definition twoOrders : Db :=
  {| orders := <[178%N := table7]> (orders (Sample.dbWith pending));
     menuItems := Sample.menu |}.

End Busy.

(** * Properties *)

Import SharedTypes Database.

(** ** Array methods *)

Section JsArrays.
Context {A : Type}.

Lemma every_ext (cb cb' : A -> Js.t bool) xs :
  (forall x, cb x = cb' x) -> Js.every cb xs = Js.every cb' xs.
Proof.
  intros Heq. induction xs as [|x rest IH]; simpl; [done|].
  rewrite Heq. destruct (cb' x) as [[]|]; simpl; auto.
Qed.

Lemma some_ext (cb cb' : A -> Js.t bool) xs :
  (forall x, cb x = cb' x) -> Js.some cb xs = Js.some cb' xs.
Proof.
  intros Heq. induction xs as [|x rest IH]; simpl; [done|].
  rewrite Heq. destruct (cb' x) as [[]|]; simpl; auto.
Qed.

Lemma filter_ext (cb cb' : A -> Js.t bool) xs :
  (forall x, cb x = cb' x) -> Js.filter cb xs = Js.filter cb' xs.
Proof.
  intros Heq. induction xs as [|x rest IH]; simpl; [done|].
  by rewrite Heq, IH.
Qed.

Lemma every_Return (f : A -> bool) xs :
  Js.every (fun x => Js.Return (f x)) xs = Js.Return (List.forallb f xs).
Proof.
  induction xs as [|x rest IH]; simpl; [done|]. by destruct (f x).
Qed.

Lemma some_Return (f : A -> bool) xs :
  Js.some (fun x => Js.Return (f x)) xs = Js.Return (List.existsb f xs).
Proof.
  induction xs as [|x rest IH]; simpl; [done|]. by destruct (f x).
Qed.

Lemma filter_Return (f : A -> bool) xs :
  Js.filter (fun x => Js.Return (f x)) xs = Js.Return (List.filter f xs).
Proof.
  induction xs as [|x rest IH]; simpl; [done|].
  rewrite IH. simpl. by destruct (f x).
Qed.

(** [every] and [some] throw when the callback throws on the first
    element. *)
Lemma every_Throw (cb : A -> Js.t bool) x rest :
  cb x = Js.Throw Js.TypeError ->
  Js.every cb (x :: rest) = Js.Throw Js.TypeError.
Proof. intros Hx. simpl. by rewrite Hx. Qed.

Lemma some_Throw (cb : A -> Js.t bool) x rest :
  cb x = Js.Throw Js.TypeError ->
  Js.some cb (x :: rest) = Js.Throw Js.TypeError.
Proof. intros Hx. simpl. by rewrite Hx. Qed.

End JsArrays.

Lemma includes_true `{EqDecision A} (xs : list A) x :
  Js.includes xs x = true <-> x ∈ xs.
Proof. unfold Js.includes. apply bool_decide_eq_true. Qed.

(** ** The role table at run time *)

Lemma parseRole_roleKey r : parseRole (roleKey r) = Some r.
Proof. by destruct r. Qed.

Lemma parseRole_Some key r : parseRole key = Some r -> key = roleKey r.
Proof.
  unfold parseRole. intros Hfind.
  apply List.find_some in Hfind as [_ Heq].
  apply String.eqb_eq in Heq. done.
Qed.

Lemma ROLE_PERMISSIONS_at_roleKey r :
  ROLE_PERMISSIONS_at (roleKey r) = Own (ROLE_PERMISSIONS r).
Proof. unfold ROLE_PERMISSIONS_at. by rewrite parseRole_roleKey. Qed.

Lemma ROLE_PERMISSIONS_at_not_role key :
  parseRole key = None ->
  ROLE_PERMISSIONS_at key = Inherited \/ ROLE_PERMISSIONS_at key = Undefined.
Proof.
  unfold ROLE_PERMISSIONS_at. intros ->.
  destruct (List.existsb _ _); auto.
Qed.

Lemma ROLE_PERMISSIONS_at_Own key ps :
  ROLE_PERMISSIONS_at key = Own ps ->
  exists r, key = roleKey r /\ ps = ROLE_PERMISSIONS r.
Proof.
  unfold ROLE_PERMISSIONS_at. destruct (parseRole key) as [r|] eqn:Hrole.
  - intros [= <-]. exists r. split; [by apply parseRole_Some | done].
  - by destruct (List.existsb _ _).
Qed.

Lemma hasPermission_roleKey r permission :
  Rbac.hasPermission (roleKey r) permission
  = Js.Return (Js.includes (ROLE_PERMISSIONS r) permission).
Proof. unfold Rbac.hasPermission. by rewrite ROLE_PERMISSIONS_at_roleKey. Qed.

Lemma hasPermission_not_role key permission :
  parseRole key = None ->
  Rbac.hasPermission key permission = Js.Throw Js.TypeError.
Proof.
  intros Hrole. unfold Rbac.hasPermission.
  by destruct (ROLE_PERMISSIONS_at_not_role key Hrole) as [-> | ->].
Qed.

Lemma rolesInclude_true rs key :
  Rbac.rolesInclude rs key = true <-> exists r, r ∈ rs /\ key = roleKey r.
Proof.
  unfold Rbac.rolesInclude. rewrite List.existsb_exists. split.
  - intros (r & Hin & Heq). exists r. apply String.eqb_eq in Heq.
    by rewrite list_elem_of_In.
  - intros (r & Hin & ->). exists r. rewrite <- list_elem_of_In.
    split; [done | apply String.eqb_refl].
Qed.

Lemma roleKey_inj r1 r2 : roleKey r1 = roleKey r2 -> r1 = r2.
Proof. by destruct r1, r2. Qed.

Lemma rolesInclude_roleKey rs r :
  Rbac.rolesInclude rs (roleKey r) = true <-> r ∈ rs.
Proof.
  rewrite rolesInclude_true. split.
  - intros (r' & Hin & Heq). by apply roleKey_inj in Heq as ->.
  - intros Hin. by exists r.
Qed.

(** ** rbac: capability checks *)

Lemma hasAnyPermission_roleKey r caps :
  Rbac.hasAnyPermission (roleKey r) caps
  = Js.Return (List.existsb (Js.includes (ROLE_PERMISSIONS r)) caps).
Proof.
  unfold Rbac.hasAnyPermission.
  rewrite (some_ext _ (fun c => Js.Return (Js.includes (ROLE_PERMISSIONS r) c)))
    by (intros c; apply hasPermission_roleKey).
  apply some_Return.
Qed.

Lemma hasAllPermissions_roleKey r caps :
  Rbac.hasAllPermissions (roleKey r) caps
  = Js.Return (List.forallb (Js.includes (ROLE_PERMISSIONS r)) caps).
Proof.
  unfold Rbac.hasAllPermissions.
  rewrite (every_ext _ (fun c => Js.Return (Js.includes (ROLE_PERMISSIONS r) c)))
    by (intros c; apply hasPermission_roleKey).
  apply every_Return.
Qed.

(** C9. For a role of the enumeration, [hasAnyPermission] returns, and
    returns [true] exactly when some listed capability is in the role's
    table entry; [hasAllPermissions] returns, and returns [true] exactly
    when every listed capability is; on the empty list the first is
    [false] and the second [true]. *)
Theorem hasAny_hasAll_permissions (r : UserRole) (caps : list Permission) :
  (exists b, Rbac.hasAnyPermission (roleKey r) caps = Js.Return b
             /\ (b = true <-> exists c, c ∈ caps /\ c ∈ ROLE_PERMISSIONS r))
  /\ (exists b, Rbac.hasAllPermissions (roleKey r) caps = Js.Return b
                /\ (b = true <-> forall c, c ∈ caps -> c ∈ ROLE_PERMISSIONS r))
  /\ Rbac.hasAnyPermission (roleKey r) [] = Js.Return false
  /\ Rbac.hasAllPermissions (roleKey r) [] = Js.Return true.
Proof.
  repeat split.
  - eexists. split; [apply hasAnyPermission_roleKey|].
    rewrite List.existsb_exists. split.
    + intros (c & Hin & Hheld). exists c.
      by rewrite list_elem_of_In, <- includes_true.
    + intros (c & Hin & Hheld). exists c.
      by rewrite <- list_elem_of_In, includes_true.
  - eexists. split; [apply hasAllPermissions_roleKey|].
    rewrite List.forallb_forall. split.
    + intros Hall c Hin. apply includes_true, Hall. by rewrite <- list_elem_of_In.
    + intros Hall c Hin. apply includes_true, Hall. by rewrite list_elem_of_In.
Qed.

(** C7. At a role string outside the enumeration [hasPermission] throws a
    [TypeError], and so do [hasAnyPermission] and [hasAllPermissions] on a
    non-empty list, while [getRolePermissions] falls back to the empty
    array. *)
Theorem hasPermission_unknown_role :
  Rbac.hasPermission "admin" VIEW_ORDERS = Js.Throw Js.TypeError
  /\ Rbac.hasAnyPermission "admin" [VIEW_ORDERS] = Js.Throw Js.TypeError
  /\ Rbac.hasAllPermissions "admin" [VIEW_ORDERS] = Js.Throw Js.TypeError
  /\ Rbac.getRolePermissions "admin" = Rbac.PermissionArray [].
Proof. repeat split. Qed.

(** The same at every string that is not a role. *)
Lemma permission_checks_throw_outside_enumeration key c caps :
  parseRole key = None ->
  Rbac.hasPermission key c = Js.Throw Js.TypeError
  /\ Rbac.hasAnyPermission key (c :: caps) = Js.Throw Js.TypeError
  /\ Rbac.hasAllPermissions key (c :: caps) = Js.Throw Js.TypeError
  /\ Rbac.hasAnyPermission key [] = Js.Return false
  /\ Rbac.hasAllPermissions key [] = Js.Return true.
Proof.
  intros Hrole. pose proof (hasPermission_not_role key c Hrole) as Hthrow.
  repeat split; try done.
  - by apply some_Throw.
  - by apply every_Throw.
Qed.

(** ** rbac: the navigation filter *)

(** The filter callback never throws: the allow-list test comes first, and
    a string on an allow-list is a role. *)
Lemma filterNavItems_total master key :
  Rbac.filterNavItems master key
  = Js.Return
      (List.filter
         (fun item =>
            Rbac.rolesInclude (Rbac.roles item) key
            && match ROLE_PERMISSIONS_at key with
               | Own ps => Js.includes ps (Rbac.permission item)
               | Inherited | Undefined => false
               end)
         master).
Proof.
  unfold Rbac.filterNavItems. rewrite <- filter_Return. apply filter_ext.
  intros item. destruct (Rbac.rolesInclude _ key) eqn:Hlisted; [|done].
  apply rolesInclude_true in Hlisted as (r & _ & ->).
  by rewrite hasPermission_roleKey, ROLE_PERMISSIONS_at_roleKey.
Qed.

Lemma filterNavItems_roleKey master r :
  exists items,
    Rbac.filterNavItems master (roleKey r) = Js.Return items
    /\ forall item,
         item ∈ items <->
         item ∈ master /\ r ∈ Rbac.roles item
         /\ Rbac.permission item ∈ ROLE_PERMISSIONS r.
Proof.
  eexists. split; [apply filterNavItems_total|].
  intros item. rewrite list_elem_of_In, List.filter_In, <- list_elem_of_In.
  rewrite ROLE_PERMISSIONS_at_roleKey, andb_true_iff.
  by rewrite rolesInclude_roleKey, includes_true.
Qed.

(** C8. For every role, [getNavigationItems] returns exactly the entries
    of the master list whose allow-list contains the role and whose
    permission the role holds; an entry whose allow-list leaves the role
    out is never returned, whether or not the role holds its permission.
    The same holds of the filter over any master list. *)
Theorem getNavigationItems_double_gate (r : UserRole) :
  (exists items,
      Rbac.getNavigationItems (roleKey r) = Js.Return items
      /\ (forall item,
            item ∈ items <->
            item ∈ Rbac.allNavItems /\ r ∈ Rbac.roles item
            /\ Rbac.permission item ∈ ROLE_PERMISSIONS r)
      /\ (forall item, r ∉ Rbac.roles item -> item ∉ items))
  /\ (forall master, exists items,
        Rbac.filterNavItems master (roleKey r) = Js.Return items
        /\ (forall item,
              item ∈ items <->
              item ∈ master /\ r ∈ Rbac.roles item
              /\ Rbac.permission item ∈ ROLE_PERMISSIONS r)
        /\ (forall item, r ∉ Rbac.roles item -> item ∉ items)).
Proof.
  assert (forall master, exists items,
             Rbac.filterNavItems master (roleKey r) = Js.Return items
             /\ (forall item,
                   item ∈ items <->
                   item ∈ master /\ r ∈ Rbac.roles item
                   /\ Rbac.permission item ∈ ROLE_PERMISSIONS r)
             /\ (forall item, r ∉ Rbac.roles item -> item ∉ items)) as Hany.
  { intros master.
    destruct (filterNavItems_roleKey master r) as (items & Hret & Hiff).
    exists items. split; [done|]. split; [done|].
    intros item Hout Hin. apply Hiff in Hin. tauto. }
  split; [apply (Hany Rbac.allNavItems) | apply Hany].
Qed.

(** The allow-list gate at work: the waiter holds [UPDATE_ORDER_STATUS],
    the entry lists the chef only. *)
Example kitchenOnly_hidden_from_waiter :
  UPDATE_ORDER_STATUS ∈ ROLE_PERMISSIONS waiter
  /\ Rbac.filterNavItems (Sample.kitchenOnly :: Rbac.allNavItems) "waiter"
     = Js.Return (List.firstn 2 Rbac.allNavItems)
  /\ Rbac.filterNavItems (Sample.kitchenOnly :: Rbac.allNavItems) "chef"
     = Js.Return (Sample.kitchenOnly :: List.firstn 2 Rbac.allNavItems).
Proof. split; [set_solver | split; reflexivity]. Qed.

(** The permission gate at work on the shipped list: the manager is on the
    allow-list of Menu but does not hold [MANAGE_MENU]. *)
Example menu_hidden_from_manager :
  exists items,
    Rbac.getNavigationItems "manager" = Js.Return items
    /\ List.map Rbac.name items = ["Dashboard"; "Orders"; "Reports"; "Payments"].
Proof. eexists. split; reflexivity. Qed.

(** A string that is not a role gets no entries, and no exception. *)
Lemma getNavigationItems_outside_enumeration key :
  parseRole key = None -> Rbac.getNavigationItems key = Js.Return [].
Proof.
  intros Hrole. unfold Rbac.getNavigationItems.
  rewrite filterNavItems_total. f_equal.
  assert (forall rs, Rbac.rolesInclude rs key = false) as Hnone.
  { intros rs. destruct (Rbac.rolesInclude rs key) eqn:Hlisted; [|done].
    apply rolesInclude_true in Hlisted as (r & _ & ->).
    by rewrite parseRole_roleKey in Hrole. }
  induction Rbac.allNavItems as [|item rest IH]; [done|].
  cbn [List.filter]. by rewrite Hnone.
Qed.

(** ** api: authorize *)

Lemma authorize_roleKey requiredPermissions user r :
  User.role user = roleKey r ->
  Api.authorize requiredPermissions (Some user)
  = if List.forallb (Js.includes (ROLE_PERMISSIONS r)) requiredPermissions
    then None else Some (Api.Forbidden requiredPermissions).
Proof.
  intros Hrole. unfold Api.authorize.
  rewrite Hrole, ROLE_PERMISSIONS_at_roleKey, every_Return.
  by destruct (List.forallb _ _).
Qed.

(** The decision is a function of the role string and the required list,
    in and out of the enumeration. *)
Lemma authorize_same_role requiredPermissions (u1 u2 : User.t) :
  User.role u1 = User.role u2 ->
  Api.authorize requiredPermissions (Some u1)
  = Api.authorize requiredPermissions (Some u2).
Proof. intros Hsame. unfold Api.authorize. by rewrite Hsame. Qed.

(** C10. Two users with the same role get the same decision from
    [authorize] for the same required permissions, whatever [permissions]
    array either user document stores; for a role of the enumeration the
    request is let through exactly when every required permission is in
    the role's [ROLE_PERMISSIONS] entry, and is refused with 403
    otherwise. *)
Theorem authorize_decides_by_role
    (requiredPermissions : list Permission) (u1 u2 : User.t) :
  User.role u2 = User.role u1 ->
  Api.authorize requiredPermissions (Some u2)
  = Api.authorize requiredPermissions (Some u1)
  /\ forall r,
       User.role u1 = roleKey r ->
       (Api.authorize requiredPermissions (Some u1) = None
        <-> forall p, p ∈ requiredPermissions -> p ∈ ROLE_PERMISSIONS r)
       /\ (Api.authorize requiredPermissions (Some u1) = None
           \/ Api.authorize requiredPermissions (Some u1)
              = Some (Api.Forbidden requiredPermissions)).
Proof.
  intros Hsame. split; [by apply authorize_same_role|].
  intros r Hrole. rewrite (authorize_roleKey _ u1 r Hrole).
  destruct (List.forallb _ _) eqn:Hall; repeat split; auto; try done.
  - intros _ p Hin. rewrite List.forallb_forall in Hall.
    apply includes_true, Hall. by rewrite <- list_elem_of_In.
  - intros Hevery. exfalso.
    assert (List.forallb (Js.includes (ROLE_PERMISSIONS r)) requiredPermissions
            = true) as Htrue; [|congruence].
    apply List.forallb_forall. intros p Hin.
    apply includes_true, Hevery. by rewrite list_elem_of_In.
Qed.

Lemma authorize_decides_by_role_witness :
  User.role Sample.overGrantedWaiter = User.role Sample.theWaiter
  /\ User.permissions Sample.overGrantedWaiter
     <> User.permissions Sample.theWaiter
  /\ Api.authorize [MANAGE_STAFF] (Some Sample.overGrantedWaiter)
     = Api.authorize [MANAGE_STAFF] (Some Sample.theWaiter)
  /\ (Api.authorize [VIEW_ORDERS; VIEW_CUSTOMER_DATA] (Some Sample.theWaiter)
      = None
      <-> forall p, p ∈ [VIEW_ORDERS; VIEW_CUSTOMER_DATA] ->
                    p ∈ ROLE_PERMISSIONS waiter).
Proof.
  split; [reflexivity|]. split; [discriminate|]. split.
  - apply (authorize_decides_by_role [MANAGE_STAFF]
             Sample.theWaiter Sample.overGrantedWaiter).
    reflexivity.
  - apply (proj2 (authorize_decides_by_role [VIEW_ORDERS; VIEW_CUSTOMER_DATA]
                    Sample.theWaiter Sample.theWaiter eq_refl)
             waiter).
    reflexivity.
Defined.

(** ** api: status updates *)

Lemma authorize_UPDATE_ORDER_STATUS user r :
  User.role user = roleKey r ->
  Api.authorize [UPDATE_ORDER_STATUS] (Some user) = None.
Proof. intros Hrole. rewrite (authorize_roleKey _ _ r Hrole). by destruct r. Qed.

Lemma authorize_VIEW_ORDERS user r :
  User.role user = roleKey r ->
  Api.authorize [VIEW_ORDERS] (Some user) = None.
Proof. intros Hrole. rewrite (authorize_roleKey _ _ r Hrole). by destruct r. Qed.

(** Passing [authorize] with a non-empty list means holding what it lists. *)
Lemma authorize_passed permission user :
  Api.authorize [permission] (Some user) = None ->
  exists ps, ROLE_PERMISSIONS_at (User.role user) = Own ps /\ permission ∈ ps.
Proof.
  unfold Api.authorize. simpl.
  destruct (ROLE_PERMISSIONS_at (User.role user)) as [ps| |]; simpl; try done.
  destruct (Js.includes ps permission) eqn:Hheld; [|done].
  intros _. exists ps. split; [done | by apply includes_true].
Qed.

Lemma zObjectId_nil p id : Api.zObjectId p id = [] <-> is_Some (parseObjectId id).
Proof.
  unfold Api.zObjectId.
  destruct (parseObjectId id); split; intros H;
    first [done | by eexists | by destruct H].
Qed.

Lemma updateOrderStatus_found db env id orderId found status :
  parseObjectId id = Some orderId ->
  orders db !! orderId = Some found ->
  Api.updateOrderStatus db env id status
  = (Api.Success (Api.withStatus found status (Api.now env)),
     {| orders := <[orderId := Api.withStatus found status (Api.now env)]>
                    (orders db);
        menuItems := menuItems db |}).
Proof. intros Hid Hfound. unfold Api.updateOrderStatus. by rewrite Hid, Hfound. Qed.

(** Every request that authenticates as a role of the enumeration, names an
    order that exists and asks for a status of the enumeration is served. *)
Lemma patchOrderStatus_accepts db env user r id orderId found status newStatus :
  User.role user = roleKey r ->
  parseObjectId id = Some orderId ->
  orders db !! orderId = Some found ->
  Api.parseStatus status = Some newStatus ->
  Api.patchOrderStatus db env (Some user) id status
  = (Api.Success (Api.withStatus found newStatus (Api.now env)),
     {| orders := <[orderId := Api.withStatus found newStatus (Api.now env)]>
                    (orders db);
        menuItems := menuItems db |}).
Proof.
  intros Hrole Hid Hfound Hstatus. unfold Api.patchOrderStatus.
  rewrite (authorize_UPDATE_ORDER_STATUS _ _ Hrole), Hstatus.
  assert (Api.zObjectId Api.params_id id = []) as ->
    by (apply zObjectId_nil; by eexists).
  by apply updateOrderStatus_found.
Qed.

(** A served request went through every gate. *)
Lemma patchOrderStatus_Success db env reqUser id status order db' :
  Api.patchOrderStatus db env reqUser id status = (Api.Success order, db') ->
  exists user orderId found newStatus,
    reqUser = Some user
    /\ Api.authorize [UPDATE_ORDER_STATUS] (Some user) = None
    /\ parseObjectId id = Some orderId
    /\ Api.parseStatus status = Some newStatus
    /\ orders db !! orderId = Some found
    /\ order = Api.withStatus found newStatus (Api.now env)
    /\ db' = {| orders := <[orderId := order]> (orders db);
               menuItems := menuItems db |}.
Proof.
  unfold Api.patchOrderStatus.
  destruct (Api.authorize _ reqUser) eqn:Hauth; [done|].
  destruct reqUser as [user|]; [|done].
  destruct (Api.parseStatus status) as [newStatus|] eqn:Hstatus; [|done].
  destruct (Api.zObjectId _ id) eqn:Hzod; [|done].
  apply zObjectId_nil in Hzod as [orderId Hid].
  unfold Api.updateOrderStatus. rewrite Hid.
  destruct (orders db !! orderId) as [found|] eqn:Hfound; [|done].
  intros [= <- <-]. by exists user, orderId, found, newStatus.
Qed.

(** A refused request wrote nothing. *)
Lemma patchOrderStatus_Failed db env reqUser id status err db' :
  Api.patchOrderStatus db env reqUser id status = (Api.Failed err, db') ->
  db' = db.
Proof.
  unfold Api.patchOrderStatus, Api.updateOrderStatus.
  repeat (case_match; try done); by intros [= _ <-].
Qed.

(** C4. A status update that is served has written the requested status
    and the request's date to the order it names and nothing else: every
    other path of that order, every other order and the menu are as
    before; one that is refused has written nothing. *)
Theorem status_update_frame db env reqUser id status :
  match Api.patchOrderStatus db env reqUser id status with
  | (Api.Success order, db') =>
      exists orderId found newStatus,
        parseObjectId id = Some orderId
        /\ Api.parseStatus status = Some newStatus
        /\ orders db !! orderId = Some found
        /\ Order.status order = newStatus
        /\ Order.updatedAt order = Api.now env
        /\ Order.total order = Order.total found
        /\ Order.items order = Order.items found
        /\ Order.tableNumber order = Order.tableNumber found
        /\ Order.customerName order = Order.customerName found
        /\ Order.createdAt order = Order.createdAt found
        /\ Order.createdBy order = Order.createdBy found
        /\ Order._id order = Order._id found
        /\ Order.orderNumber order = Order.orderNumber found
        /\ orders db' !! orderId = Some order
        /\ (forall other, other <> orderId ->
                          orders db' !! other = orders db !! other)
        /\ menuItems db' = menuItems db
  | (Api.Failed _, db') => db' = db
  end.
Proof.
  destruct (Api.patchOrderStatus db env reqUser id status)
    as [[order|err] db'] eqn:Hpatch.
  - apply patchOrderStatus_Success in Hpatch
      as (user & orderId & found & newStatus
          & _ & _ & Hid & Hstatus & Hfound & -> & ->).
    exists orderId, found, newStatus. simpl.
    repeat (split; [done|]). split; [apply lookup_insert_eq|].
    split; [|done]. intros other Hother. by apply lookup_insert_ne.
  - by apply patchOrderStatus_Failed in Hpatch.
Qed.

(** The chef starts the order of table 5: status and date move, the 25 on
    the bill and its two lines stay. *)
Example chef_starts_table5 :
  Sample.chefStarts.1
  = Api.Success (Api.withStatus (Sample.order pending) preparing 2000)
  /\ orders Sample.chefStarts.2 !! 177%N
     = Some (Api.withStatus (Sample.order pending) preparing 2000)
  /\ Order.total (Api.withStatus (Sample.order pending) preparing 2000)
     = 25%float.
Proof. repeat split. Qed.

(** C1 (as the code has it). The status update consults no transition
    table: for every stored order and every status of the enumeration,
    whatever the order's current status, the request of any role is served
    and the order stored afterwards has the requested status. *)
Theorem status_update_accepts_any_pair
    db env user r id orderId found status newStatus :
  User.role user = roleKey r ->
  parseObjectId id = Some orderId ->
  orders db !! orderId = Some found ->
  Api.parseStatus status = Some newStatus ->
  exists order db',
    Api.patchOrderStatus db env (Some user) id status = (Api.Success order, db')
    /\ Order.status order = newStatus
    /\ orders db' !! orderId = Some order.
Proof.
  intros Hrole Hid Hfound Hstatus.
  do 2 eexists. split; [by eapply patchOrderStatus_accepts|].
  split; [done | apply lookup_insert_eq].
Qed.

(** A skip: the waiter moves the pending order straight to [served]. *)
Lemma status_update_accepts_any_pair_witness :
  Spec.isEdge pending served = false
  /\ exists order db',
       Api.patchOrderStatus (Sample.dbWith pending) Sample.later
         (Some Sample.theWaiter) Sample.orderId "served"
       = (Api.Success order, db')
       /\ Order.status order = served
       /\ orders db' !! 177%N = Some order.
Proof.
  split; [reflexivity|].
  apply (status_update_accepts_any_pair _ _ _ waiter _ _ (Sample.order pending));
    reflexivity.
Defined.

(** Against C1 as stated: [served] to [pending] is no edge of the table,
    yet the chef's request is served and the stored status is [pending]. *)
Lemma served_order_reopened :
  Spec.isEdge served pending = false
  /\ Order.status <$> orders (Sample.dbWith served) !! 177%N = Some served
  /\ (Api.patchOrderStatus (Sample.dbWith served) Sample.later
        (Some Sample.theChef) Sample.orderId "pending").1
     = Api.Success (Api.withStatus (Sample.order served) pending 2000)
  /\ Order.status <$>
       orders (Api.patchOrderStatus (Sample.dbWith served) Sample.later
                 (Some Sample.theChef) Sample.orderId "pending").2 !! 177%N
     = Some pending.
Proof. repeat split. Qed.

(** C2 (as the code has it). A status update is served only to a user
    whose role's table entry holds [UPDATE_ORDER_STATUS]; every role of
    the enumeration holds it, and that is the only role check: on each
    edge of the transition table the request of every role is served,
    inside or outside the edge's allowed set. *)
Theorem status_update_gated_by_capability_only db env user id status :
  (forall order db',
      Api.patchOrderStatus db env (Some user) id status
      = (Api.Success order, db') ->
      exists ps,
        ROLE_PERMISSIONS_at (User.role user) = Own ps
        /\ UPDATE_ORDER_STATUS ∈ ps)
  /\ (forall r from to allowed orderId found,
        User.role user = roleKey r ->
        (from, to, allowed) ∈ Spec.transitionTable ->
        parseObjectId id = Some orderId ->
        orders db !! orderId = Some found ->
        Order.status found = from ->
        Api.parseStatus status = Some to ->
        UPDATE_ORDER_STATUS ∈ ROLE_PERMISSIONS r
        /\ exists order db',
             Api.patchOrderStatus db env (Some user) id status
             = (Api.Success order, db')
             /\ Order.status order = to).
Proof.
  split.
  - intros order db' Hpatch.
    apply patchOrderStatus_Success in Hpatch
      as (user' & _ & _ & _ & [= <-] & Hauth & _).
    by apply authorize_passed.
  - intros r from to allowed orderId found Hrole _ Hid Hfound _ Hstatus. split.
    + destruct r; set_solver.
    + do 2 eexists. split; [by eapply patchOrderStatus_accepts | done].
Qed.

Lemma status_update_gated_by_capability_only_witness :
  (pending, cancelled, [waiter; manager; owner]) ∈ Spec.transitionTable
  /\ (chef ∉ [waiter; manager; owner])
  /\ UPDATE_ORDER_STATUS ∈ ROLE_PERMISSIONS chef
  /\ exists order db',
       Api.patchOrderStatus (Sample.dbWith pending) Sample.later
         (Some Sample.theChef) Sample.orderId "cancelled"
       = (Api.Success order, db')
       /\ Order.status order = cancelled.
Proof.
  split; [compute_done|]. split; [compute_done|].
  eapply (proj2 (status_update_gated_by_capability_only
                   (Sample.dbWith pending) Sample.later Sample.theChef
                   Sample.orderId "cancelled")
            chef pending cancelled [waiter; manager; owner] 177%N
            (Sample.order pending));
    first [reflexivity | compute_done].
Defined.

(** Against C2 as stated: the waiter is outside the allowed set of
    [pending] to [preparing], and is served. *)
Lemma waiter_starts_preparing :
  Spec.allowedRoles pending preparing = Some [chef; manager; owner]
  /\ (waiter ∉ [chef; manager; owner])
  /\ (Api.patchOrderStatus (Sample.dbWith pending) Sample.later
        (Some Sample.theWaiter) Sample.orderId "preparing").1
     = Api.Success (Api.withStatus (Sample.order pending) preparing 2000).
Proof. split; [reflexivity|]. split; [compute_done | reflexivity]. Qed.

(** C5 (as the code has it). A status update is one unconditional write:
    of two requests against the same stored order, applied one after the
    other in either order, both are served, and the order is left with the
    status of the one applied last. *)
Theorem last_status_write_wins
    db env1 env2 user1 user2 r1 r2 id orderId found status1 status2 new1 new2 :
  User.role user1 = roleKey r1 ->
  User.role user2 = roleKey r2 ->
  parseObjectId id = Some orderId ->
  orders db !! orderId = Some found ->
  Api.parseStatus status1 = Some new1 ->
  Api.parseStatus status2 = Some new2 ->
  exists order1 db1 order2 db2,
    Api.patchOrderStatus db env1 (Some user1) id status1
    = (Api.Success order1, db1)
    /\ Api.patchOrderStatus db1 env2 (Some user2) id status2
       = (Api.Success order2, db2)
    /\ Order.status order1 = new1
    /\ Order.status order2 = new2
    /\ orders db2 !! orderId = Some order2.
Proof.
  intros Hrole1 Hrole2 Hid Hfound Hstatus1 Hstatus2.
  eexists _, _, _, _. split; [by eapply patchOrderStatus_accepts|].
  split.
  - eapply patchOrderStatus_accepts; try done. simpl. apply lookup_insert_eq.
  - split; [done|]. split; [done|]. simpl. apply lookup_insert_eq.
Qed.

Lemma last_status_write_wins_witness :
  exists order1 db1 order2 db2,
    Api.patchOrderStatus (Sample.dbWith pending) Sample.later
      (Some Sample.theWaiter) Sample.orderId "cancelled"
    = (Api.Success order1, db1)
    /\ Api.patchOrderStatus db1 Sample.evenLater
         (Some Sample.theChef) Sample.orderId "preparing"
       = (Api.Success order2, db2)
    /\ Order.status order1 = cancelled
    /\ Order.status order2 = preparing
    /\ orders db2 !! 177%N = Some order2.
Proof.
  apply (last_status_write_wins _ _ _ _ _ waiter chef _ _ (Sample.order pending));
    reflexivity.
Defined.

(** Against C5 as stated: from [pending] the chef asks for [preparing] and
    the waiter for [cancelled]; both requests are served, and the order
    ends [cancelled] over the chef's committed [preparing]. *)
Lemma both_writers_commit :
  Order.status <$> orders (Sample.dbWith pending) !! 177%N = Some pending
  /\ Sample.chefStarts.1
     = Api.Success (Api.withStatus (Sample.order pending) preparing 2000)
  /\ Sample.waiterCancels.1
     = Api.Success
         (Api.withStatus (Api.withStatus (Sample.order pending) preparing 2000)
            cancelled 3000)
  /\ Order.status <$> orders Sample.waiterCancels.2 !! 177%N = Some cancelled.
Proof. repeat split. Qed.

(** ** api: order creation *)






(** The loop on a menu that has every referenced item stops at the first
    unavailable one. *)
Lemma createOrderLoop_unavailable db lines :
  forall total orderItems,
    Forall (fun line => is_Some (Totals.referenced db line)) lines ->
    Exists (fun line => exists menuItem,
                Totals.referenced db line = Some menuItem
                /\ MenuItem.available menuItem = false) lines ->
    exists line menuItem,
      line ∈ lines
      /\ Totals.referenced db line = Some menuItem
      /\ MenuItem.available menuItem = false
      /\ Api.createOrderLoop db lines total orderItems
         = Api.Failed (Api.MenuItemUnavailable (MenuItem.name menuItem)).
Proof.
  induction lines as [|line rest IH]; intros total orderItems Hall Hsome.
  - by apply Exists_nil in Hsome.
  - apply Forall_cons in Hall as [[menuItem Hline] Hall].
    cbn [Api.createOrderLoop]. unfold Totals.referenced in Hline.
    destruct (parseObjectId _) as [menuItemId|] eqn:Hid; [|done].
    simpl in Hline. rewrite Hline.
    destruct (MenuItem.available menuItem) eqn:Havailable; cbn [negb].
    + apply Exists_cons in Hsome as [(other & Hother & Hoff) | Hsome].
      { unfold Totals.referenced in Hother. rewrite Hid in Hother.
        simpl in Hother. congruence. }
      match goal with
      | |- context [Api.createOrderLoop db rest ?t ?acc] =>
          destruct (IH t acc Hall Hsome)
            as (line' & menuItem' & Hin & Href & Hoff & Hloop)
      end.
      exists line', menuItem'. rewrite Hloop. repeat split; try done.
      by right.
    + exists line, menuItem. repeat split; try done; [by left|].
      unfold Totals.referenced. by rewrite Hid.
Qed.

(** The loop gets through lines that refer to available items. *)
Lemma createOrderLoop_app db before rest :
  forall total orderItems,
    Forall (Totals.orderable db) before ->
    exists total' orderItems',
      Api.createOrderLoop db (before ++ rest) total orderItems
      = Api.createOrderLoop db rest total' orderItems'.
Proof.
  induction before as [|line before IH]; intros total orderItems Hall.
  - by eexists _, _.
  - apply Forall_cons in Hall as [(menuItem & Href & Havailable) Hall].
    cbn [app Api.createOrderLoop]. unfold Totals.referenced in Href.
    destruct (parseObjectId _) as [menuItemId|]; [|done].
    simpl in Href. rewrite Href, Havailable. cbn [negb]. by apply IH.
Qed.

Lemma createOrderLoop_orderable db lines total orderItems :
  Forall (Totals.orderable db) lines ->
  exists total' orderItems',
    Api.createOrderLoop db lines total orderItems
    = Api.Success (total', orderItems').
Proof.
  intros Hall.
  destruct (createOrderLoop_app db lines [] total orderItems Hall)
    as (total' & orderItems' & Hloop).
  rewrite app_nil_r in Hloop. by exists total', orderItems'.
Qed.

(** The document [createOrder] builds has no [orderNumber], which the
    schema requires. *)
Lemma newOrder_orderSchema db env reqUser body order :
  Api.newOrder db env reqUser body = Api.Success order ->
  Order.orderNumber order = None /\ orderSchema order = false.
Proof.
  unfold Api.newOrder.
  destruct (Api.createOrderLoop _ _ _ _) as [[total orderItems]|]; [|done].
  by intros [= <-].
Qed.

(** [createOrder] builds a document for every request whose lines refer
    to available menu items. *)
Lemma newOrder_orderable db env reqUser body :
  Forall (Totals.orderable db) (Api.CreateOrderRequest.items body) ->
  exists order, Api.newOrder db env reqUser body = Api.Success order.
Proof.
  intros Hall. unfold Api.newOrder.
  destruct (createOrderLoop_orderable db _ 0%float [] Hall)
    as (total & orderItems & ->).
  by eexists.
Qed.

Lemma newOrder_Failed db env reqUser body err :
  Api.newOrder db env reqUser body = Api.Failed err <->
  Api.createOrderLoop db (Api.CreateOrderRequest.items body) 0 []
  = Api.Failed err.
Proof.
  unfold Api.newOrder.
  destruct (Api.createOrderLoop _ _ _ _) as [[total orderItems]|]; split;
    first [done | by intros [= <-]].
Qed.


(** [createOrder] ends in the error of the loop, or else in the
    [ValidationError] of [save()]. *)
Lemma createOrder_refused db env reqUser body :
  Api.createOrder db env reqUser body
  = match Api.newOrder db env reqUser body with
    | Api.Failed err => (Api.Failed err, db)
    | Api.Success _ => (Api.Failed Api.MongooseValidationError, db)
    end.
Proof.
  unfold Api.createOrder.
  destruct (Api.newOrder db env reqUser body) as [order|err] eqn:Hnew; [|done].
  apply newOrder_orderSchema in Hnew as [_ Hschema].
  unfold Api.save. by rewrite Hschema.
Qed.

Lemma postOrder_refused db env reqUser body :
  exists err, Api.postOrder db env reqUser body = (Api.Failed err, db).
Proof.
  unfold Api.postOrder. rewrite createOrder_refused.
  destruct (Api.authorize _ reqUser); [by eexists|].
  destruct (Api.createOrderSchema body); [|by eexists].
  destruct (Api.newOrder db env reqUser body); by eexists.
Qed.


(** A request that gets to the controller ends as the loop does, when the
    loop stops. *)
Lemma postOrder_loop_Failed db env user r body err :
  User.role user = roleKey r ->
  Api.createOrderSchema body = [] ->
  Api.createOrderLoop db (Api.CreateOrderRequest.items body) 0 []
  = Api.Failed err ->
  Api.postOrder db env (Some user) body = (Api.Failed err, db).
Proof.
  intros Hrole Hvalid Hloop. unfold Api.postOrder.
  rewrite (authorize_VIEW_ORDERS _ _ Hrole), Hvalid, createOrder_refused.
  apply (newOrder_Failed db env (Some user)) in Hloop. by rewrite Hloop.
Qed.

Lemma handle_PostOrder db env reqUser body :
  Api.handle db (Api.PostOrder env reqUser body) = db.
Proof.
  cbn [Api.handle].
  destruct (postOrder_refused db env reqUser body) as [err Hpost].
  by rewrite Hpost.
Qed.







(** Which refusal a request with several faults meets: validation comes
    before the menu is read, and the lines are read in order. *)
Example refusals_in_order :
  (Api.postOrder Sample.emptyDb Sample.atCreation (Some Sample.theWaiter)
     (Sample.request [Sample.line Sample.soupId 0])).1
  = Api.Failed
      (Api.ValidationFailed
         [ {| Api.path := Api.body_items_quantity 0;
              Api.code := Api.too_small |} ])
  /\ (Api.postOrder Sample.emptyDb Sample.atCreation (Some Sample.theWaiter)
        (Sample.request [Sample.line Sample.soupId 1;
                         Sample.line Sample.missingId 1])).1
     = Api.Failed (Api.MenuItemUnavailable "Soup")
  /\ (Api.postOrder Sample.emptyDb Sample.atCreation None Sample.table5).1
     = Api.Failed Api.Unauthorized.
Proof. repeat split. Qed.

(** The scenario of the specification, run on the code, with the order
    of table 5 in the collection: after the chef has started the order,
    the waiter's [cancelled] is served as well. *)
Example scenario_table5 :
  Spec.isEdge preparing cancelled = false
  /\ Order.status <$> orders Sample.chefStarts.2 !! 177%N = Some preparing
  /\ Order.status <$> orders Sample.waiterCancels.2 !! 177%N = Some cancelled
  /\ Order.total <$> orders Sample.waiterCancels.2 !! 177%N = Some 25%float.
Proof. repeat split. Qed.

(** ** Further behaviour worth recording *)

(** A user document whose role is not in the table ends [authorize] in a
    [TypeError], which [errorHandler] answers with 500, unless nothing is
    required. *)
Example authorize_unknown_role :
  let admin :=
    {| User._id := 9; User.name := "admin"; User.email := "admin@restaurant.com";
       User.role := "admin"; User.permissions := ROLE_PERMISSIONS owner;
       User.isActive := true |} in
  Api.errorHandler <$> Api.authorize [VIEW_ORDERS] (Some admin) = Some 500%nat
  /\ Api.authorize [] (Some admin) = None
  /\ Api.errorHandler <$> Api.authorize [MANAGE_STAFF] (Some Sample.theChef)
     = Some 403%nat
  /\ Api.errorHandler <$> Api.authorize [VIEW_ORDERS] None = Some 401%nat.
Proof. repeat split. Qed.

(** Totals are doubles: 0.1 + 0.2 is stored as computed, not as 0.3. *)
#[warnings="-inexact-float"]
Example totals_round_as_doubles :
  Totals.sum [0.1; 0.2]%float = 0.30000000000000004%float
  /\ (Totals.sum [0.1; 0.2] =? 0.3)%float = false.
Proof. split; reflexivity. Qed.

(** Strings as JavaScript has them: [trim] strips the no-break space
    U+00A0 and the line separator U+2028 as it strips the blank, and
    [length] counts a code point outside the basic plane, here U+1F354,
    as two units where it takes four bytes. *)
Example strings_as_javascript :
  let nbsp := String (ascii_of_N 194) (String (ascii_of_N 160) "") in
  let ls :=
    String (ascii_of_N 226) (String (ascii_of_N 128)
      (String (ascii_of_N 168) "")) in
  let burger :=
    String (ascii_of_N 240) (String (ascii_of_N 159)
      (String (ascii_of_N 141) (String (ascii_of_N 148) ""))) in
  trim (nbsp ++ " Ana " ++ ls ++ nbsp) = "Ana"
  /\ trim (" " ++ burger ++ " ") = burger
  /\ jsLength burger = 2%nat
  /\ String.length burger = 4%nat
  /\ jsLength nbsp = 1%nat.
Proof. repeat split. Qed.

(** The order number the hook gives a document saved on a day on which
    one order has been created already. *)
Example second_order_of_the_day :
  Order.orderNumber
    (Api.orderNumberHook (Sample.dbWith pending) Sample.later
       (Sample.order pending))
  = Some "ORD-20250101-002".
Proof. reflexivity. Qed.

(** ** rbac: features and the role hierarchy *)

Lemma filter_Return_on {A} (cb : A -> Js.t bool) (g : A -> bool) xs :
  (forall x, x ∈ xs -> cb x = Js.Return (g x)) ->
  Js.filter cb xs = Js.Return (List.filter g xs).
Proof.
  induction xs as [|x rest IH]; intros Hcb; [done|]. simpl.
  rewrite (Hcb x) by (by left). simpl.
  rewrite IH by (intros y Hy; apply Hcb; by right). simpl.
  by destruct (g x).
Qed.

Lemma filter_sublist {A} (f : A -> bool) xs : sublist (List.filter f xs) xs.
Proof.
  induction xs as [|x rest IH]; simpl; [constructor|].
  destruct (f x); by constructor.
Qed.

Lemma hasAnyPermission_not_role key c caps :
  parseRole key = None ->
  Rbac.hasAnyPermission key (c :: caps) = Js.Throw Js.TypeError.
Proof. intros Hrole. by apply some_Throw, hasPermission_not_role. Qed.

Lemma features_own feature :
  feature ∈ RbacFeatures.features ->
  exists c caps,
    RbacFeatures.ownProperty RbacFeatures.featurePermissions feature
    = Some (c :: caps).
Proof.
  unfold RbacFeatures.features. rewrite !elem_of_cons, elem_of_nil.
  intros Hin. repeat destruct Hin as [-> | Hin]; try done; by do 2 eexists.
Qed.

Lemma canAccessFeature_roleKey r feature :
  RbacFeatures.canAccessFeature (roleKey r) feature
  = match RbacFeatures.objectLookup RbacFeatures.featurePermissions feature with
    | RbacFeatures.Found required =>
        Js.Return (List.existsb (Js.includes (ROLE_PERMISSIONS r)) required)
    | RbacFeatures.FromPrototype => Js.Throw Js.TypeError
    | RbacFeatures.Missing => Js.Return false
    end.
Proof.
  unfold RbacFeatures.canAccessFeature.
  destruct (RbacFeatures.objectLookup _ _); try done.
  apply hasAnyPermission_roleKey.
Qed.

(** X1. For a role of the enumeration and a feature of the table,
    [canAccessFeature] returns, and returns [true] exactly when the role
    holds at least one of the permissions the table lists for the
    feature. *)
Theorem canAccessFeature_iff (r : UserRole) feature required :
  RbacFeatures.ownProperty RbacFeatures.featurePermissions feature
  = Some required ->
  exists b,
    RbacFeatures.canAccessFeature (roleKey r) feature = Js.Return b
    /\ (b = true <-> exists p, p ∈ required /\ p ∈ ROLE_PERMISSIONS r).
Proof.
  intros Hown. eexists. split.
  - rewrite canAccessFeature_roleKey. unfold RbacFeatures.objectLookup.
    by rewrite Hown.
  - rewrite List.existsb_exists. split.
    + intros (p & Hin & Hheld). exists p.
      by rewrite list_elem_of_In, <- includes_true.
    + intros (p & Hin & Hheld). exists p.
      by rewrite <- list_elem_of_In, includes_true.
Qed.

Lemma canAccessFeature_iff_witness :
  exists b,
    RbacFeatures.canAccessFeature "chef" "dashboard" = Js.Return b
    /\ (b = true <->
        exists p, p ∈ [VIEW_ORDERS; VIEW_REPORTS] /\ p ∈ ROLE_PERMISSIONS chef).
Proof. apply (canAccessFeature_iff chef "dashboard"). reflexivity. Defined.

(** X2. For a string that is not a role, what [canAccessFeature] does
    depends on the feature: a feature the table does not know (nor
    [Object.prototype]) is answered [false]; each of the nine features
    ends in a [TypeError]. *)
Theorem canAccessFeature_outside_enumeration key feature :
  parseRole key = None ->
  (RbacFeatures.ownProperty RbacFeatures.featurePermissions feature = None ->
   List.existsb (String.eqb feature) objectPrototypeKeys = false ->
   RbacFeatures.canAccessFeature key feature = Js.Return false)
  /\ (feature ∈ RbacFeatures.features ->
      RbacFeatures.canAccessFeature key feature = Js.Throw Js.TypeError).
Proof.
  intros Hrole. unfold RbacFeatures.canAccessFeature, RbacFeatures.objectLookup.
  split.
  - by intros -> ->.
  - intros Hin. apply features_own in Hin as (c & caps & ->).
    by apply hasAnyPermission_not_role.
Qed.

Lemma canAccessFeature_outside_enumeration_witness :
  RbacFeatures.canAccessFeature "admin" "inventory" = Js.Return false
  /\ RbacFeatures.canAccessFeature "admin" "orders" = Js.Throw Js.TypeError.
Proof.
  destruct (canAccessFeature_outside_enumeration "admin" "inventory" eq_refl)
    as [Hunknown _].
  destruct (canAccessFeature_outside_enumeration "admin" "orders" eq_refl)
    as [_ Hknown].
  split; [by apply Hunknown | apply Hknown; compute_done].
Defined.

Lemma getAvailableFeatures_roleKey r :
  RbacFeatures.getAvailableFeatures (roleKey r)
  = Js.Return
      (List.filter
         (fun feature =>
            match RbacFeatures.ownProperty RbacFeatures.featurePermissions
                    feature with
            | Some required =>
                List.existsb (Js.includes (ROLE_PERMISSIONS r)) required
            | None => false
            end)
         RbacFeatures.features).
Proof.
  apply filter_Return_on. intros feature Hin.
  rewrite canAccessFeature_roleKey. unfold RbacFeatures.objectLookup.
  by apply features_own in Hin as (c & caps & ->).
Qed.

(** X3. [getAvailableFeatures] returns for every role of the enumeration,
    lists the features in the order of the master list, and grows with
    the role's permissions: a role whose permissions are among those of
    another gets no feature the other does not get. *)
Theorem getAvailableFeatures_monotone (r1 r2 : UserRole) :
  ROLE_PERMISSIONS r1 ⊆ ROLE_PERMISSIONS r2 ->
  exists fs1 fs2,
    RbacFeatures.getAvailableFeatures (roleKey r1) = Js.Return fs1
    /\ RbacFeatures.getAvailableFeatures (roleKey r2) = Js.Return fs2
    /\ fs1 ⊆ fs2
    /\ sublist fs1 RbacFeatures.features
    /\ sublist fs2 RbacFeatures.features.
Proof.
  intros Hsub. do 2 eexists.
  split; [apply getAvailableFeatures_roleKey|].
  split; [apply getAvailableFeatures_roleKey|].
  split; [|split; apply filter_sublist].
  intros feature. rewrite !list_elem_of_In, !List.filter_In.
  intros [Hin Hheld]. split; [done|].
  destruct (RbacFeatures.ownProperty _ feature) as [required|]; [|done].
  apply List.existsb_exists in Hheld as (p & Hp & Hincl).
  apply List.existsb_exists. exists p. split; [done|].
  apply includes_true, Hsub. by apply includes_true.
Qed.

Lemma getAvailableFeatures_monotone_witness :
  exists fs1 fs2,
    RbacFeatures.getAvailableFeatures "waiter" = Js.Return fs1
    /\ RbacFeatures.getAvailableFeatures "manager" = Js.Return fs2
    /\ fs1 ⊆ fs2
    /\ sublist fs1 RbacFeatures.features
    /\ sublist fs2 RbacFeatures.features.
Proof. apply (getAvailableFeatures_monotone waiter manager). compute_done. Defined.

(** X4. The permission sets of the four roles are nested, with the
    owner's on top, and [authorize] follows the nesting: what it lets
    through for a role it lets through for every role whose permissions
    include that role's. *)
Theorem authorize_monotone :
  (forall r1 r2,
      ROLE_PERMISSIONS r1 ⊆ ROLE_PERMISSIONS r2
      \/ ROLE_PERMISSIONS r2 ⊆ ROLE_PERMISSIONS r1)
  /\ (forall r, ROLE_PERMISSIONS r ⊆ ROLE_PERMISSIONS owner)
  /\ (forall requiredPermissions (u1 u2 : User.t) r1 r2,
        User.role u1 = roleKey r1 ->
        User.role u2 = roleKey r2 ->
        ROLE_PERMISSIONS r1 ⊆ ROLE_PERMISSIONS r2 ->
        Api.authorize requiredPermissions (Some u1) = None ->
        Api.authorize requiredPermissions (Some u2) = None).
Proof.
  split; [|split].
  - intros r1 r2. destruct r1, r2; first [left; compute_done | right; compute_done].
  - intros r. destruct r; compute_done.
  - intros requiredPermissions u1 u2 r1 r2 Hrole1 Hrole2 Hsub.
    rewrite (authorize_roleKey _ u1 r1 Hrole1), (authorize_roleKey _ u2 r2 Hrole2).
    destruct (List.forallb (Js.includes (ROLE_PERMISSIONS r1)) _) eqn:Hall;
      [|done].
    intros _.
    assert (List.forallb (Js.includes (ROLE_PERMISSIONS r2)) requiredPermissions
            = true) as ->; [|done].
    rewrite List.forallb_forall in Hall. apply List.forallb_forall.
    intros p Hin. apply includes_true, Hsub, includes_true. by apply Hall.
Qed.

Lemma authorize_monotone_witness :
  Api.authorize [VIEW_ORDERS; VIEW_CUSTOMER_DATA] (Some Sample.theWaiter) = None
  /\ Api.authorize [VIEW_ORDERS; VIEW_CUSTOMER_DATA]
       (Some (Sample.staff 2 manager))
     = None.
Proof.
  assert (Api.authorize [VIEW_ORDERS; VIEW_CUSTOMER_DATA]
            (Some Sample.theWaiter) = None) as Hwaiter by reflexivity.
  split; [done|].
  apply (proj2 (proj2 authorize_monotone) _ Sample.theWaiter
           (Sample.staff 2 manager) waiter manager);
    first [reflexivity | compute_done].
Defined.

Lemma canManageRole_roleKey a b :
  RbacFeatures.canManageRole (roleKey a) (roleKey b) = Js.Return true
  <-> a = owner \/ (a = manager /\ (b = chef \/ b = waiter)).
Proof.
  destruct a, b; vm_compute; split; intros H; try done; try tauto;
    intuition congruence.
Qed.

(** X5. On the roles of the enumeration [canManageRole] is transitive; two
    roles manage each other only if both are the owner; and a role that
    manages another holds every permission the other holds. *)
Theorem canManageRole_hierarchy (a b c : UserRole) :
  RbacFeatures.canManageRole (roleKey a) (roleKey b) = Js.Return true ->
  (RbacFeatures.canManageRole (roleKey b) (roleKey c) = Js.Return true ->
   RbacFeatures.canManageRole (roleKey a) (roleKey c) = Js.Return true)
  /\ (RbacFeatures.canManageRole (roleKey b) (roleKey a) = Js.Return true ->
      a = owner /\ b = owner)
  /\ ROLE_PERMISSIONS b ⊆ ROLE_PERMISSIONS a.
Proof.
  rewrite !canManageRole_roleKey. intros Hab. split; [|split].
  - intros Hbc. destruct a, b, c; intuition congruence.
  - intros Hba. destruct a, b; intuition congruence.
  - destruct a, b; first [compute_done | exfalso; intuition congruence].
Qed.

Lemma canManageRole_hierarchy_witness :
  RbacFeatures.canManageRole "owner" "chef" = Js.Return true
  /\ ROLE_PERMISSIONS manager ⊆ ROLE_PERMISSIONS owner
  /\ RbacFeatures.canManageRole "manager" "owner" = Js.Return false.
Proof.
  destruct (canManageRole_hierarchy owner manager chef eq_refl)
    as (Htrans & _ & Hsub).
  split; [by apply Htrans|]. split; [exact Hsub | reflexivity].
Defined.

Lemma rolesInclude_not_role rs key :
  parseRole key = None -> Rbac.rolesInclude rs key = false.
Proof.
  intros Hrole. destruct (Rbac.rolesInclude rs key) eqn:Hlisted; [|done].
  apply rolesInclude_true in Hlisted as (r & _ & ->).
  by rewrite parseRole_roleKey in Hrole.
Qed.

Lemma hierarchy_own key :
  parseRole key = None ->
  RbacFeatures.ownProperty RbacFeatures.hierarchy key = None.
Proof.
  intros Hrole. unfold RbacFeatures.ownProperty.
  destruct (List.find _ _) as [entry|] eqn:Hfind; [|done].
  apply List.find_some in Hfind as [Hin Heq]. apply String.eqb_eq in Heq.
  exfalso. unfold RbacFeatures.hierarchy in Hin. simpl in Hin.
  destruct Hin as [<- | [<- | [<- | [<- | []]]]]; simpl in Heq; subst key;
    discriminate Hrole.
Qed.

(** X6. With a string that is not a role, [canManageRole] answers [false]
    without throwing when the string is the target, and when it is the
    managing role unless it names a member of [Object.prototype], in which
    case it ends in a [TypeError]. *)
Theorem canManageRole_outside_enumeration key :
  parseRole key = None ->
  (forall r, RbacFeatures.canManageRole (roleKey r) key = Js.Return false)
  /\ (forall target,
        RbacFeatures.canManageRole key target
        = if List.existsb (String.eqb key) objectPrototypeKeys
          then Js.Throw Js.TypeError else Js.Return false).
Proof.
  intros Hrole. split.
  - intros r. unfold RbacFeatures.canManageRole.
    assert (exists managed,
               RbacFeatures.objectLookup RbacFeatures.hierarchy (roleKey r)
               = RbacFeatures.Found managed) as [managed ->]
      by (destruct r; by eexists).
    by rewrite (rolesInclude_not_role _ key Hrole).
  - intros target. unfold RbacFeatures.canManageRole, RbacFeatures.objectLookup.
    rewrite (hierarchy_own key Hrole). by destruct (List.existsb _ _).
Qed.

Lemma canManageRole_outside_enumeration_witness :
  RbacFeatures.canManageRole "owner" "admin" = Js.Return false
  /\ RbacFeatures.canManageRole "admin" "chef" = Js.Return false
  /\ RbacFeatures.canManageRole "constructor" "chef" = Js.Throw Js.TypeError.
Proof.
  split; [apply (proj1 (canManageRole_outside_enumeration "admin" eq_refl) owner)|].
  split; [apply (proj2 (canManageRole_outside_enumeration "admin" eq_refl))|].
  apply (proj2 (canManageRole_outside_enumeration "constructor" eq_refl)).
Defined.

(** ** owner-dashboard: routes *)

Lemma prefix_app p : forall route suffix,
  String.prefix p route = true -> String.prefix p (route ++ suffix) = true.
Proof.
  induction p as [|a p IH]; intros route suffix.
  { intros _. by destruct (route ++ suffix). }
  destruct route as [|b route]; [done|]. simpl.
  destruct (ascii_dec a b); [apply IH | done].
Qed.

Lemma getNavigationItems_not_role key :
  parseRole key = None -> DashboardNavigation.getNavigationItems key = [].
Proof.
  intros Hrole. unfold DashboardNavigation.getNavigationItems.
  assert (Forall (fun item => DashboardNavigation.visible key item = false)
            DashboardNavigation.allNavItems) as Hhidden.
  { repeat constructor;
      apply (rolesInclude_not_role _ key Hrole). }
  induction Hhidden as [|item rest Hitem _ IH]; [done|].
  cbn [List.filter]. by rewrite Hitem.
Qed.

(** X7. The route a role of the enumeration is sent to by default is one
    the role can access. A string that is not a role is sent to
    [/dashboard] and can access no route at all. *)
Theorem default_route_accessible :
  (forall r,
      DashboardNavigation.canAccessRoute
        (DashboardNavigation.getDefaultRoute (roleKey r)) (roleKey r)
      = true)
  /\ (forall key route,
        parseRole key = None ->
        DashboardNavigation.getDefaultRoute key = "/dashboard"
        /\ DashboardNavigation.canAccessRoute route key = false).
Proof.
  split.
  - intros r. by destruct r.
  - intros key route Hrole. split.
    + unfold DashboardNavigation.getDefaultRoute.
      destruct (String.eqb key "chef") eqn:Hchef.
      { apply String.eqb_eq in Hchef as ->. discriminate Hrole. }
      destruct (String.eqb key "waiter") eqn:Hwaiter; [|done].
      apply String.eqb_eq in Hwaiter as ->. discriminate Hrole.
    + unfold DashboardNavigation.canAccessRoute.
      by rewrite (getNavigationItems_not_role key Hrole).
Qed.

Lemma default_route_accessible_witness :
  DashboardNavigation.getDefaultRoute "admin" = "/dashboard"
  /\ DashboardNavigation.canAccessRoute "/dashboard" "admin" = false
  /\ DashboardNavigation.canAccessRoute
       (DashboardNavigation.getDefaultRoute "chef") "chef" = true.
Proof.
  destruct default_route_accessible as [Hrole Hother].
  destruct (Hother "admin" "/dashboard" eq_refl) as [Hdefault Hnone].
  split; [exact Hdefault|]. split; [exact Hnone | exact (Hrole chef)].
Defined.

(** X8. [canAccessRoute] matches by prefix: a route that can be accessed
    stays accessible however it is extended, across path segments or
    within one. *)
Theorem canAccessRoute_extension route suffix userRole :
  DashboardNavigation.canAccessRoute route userRole = true ->
  DashboardNavigation.canAccessRoute (route ++ suffix) userRole = true.
Proof.
  unfold DashboardNavigation.canAccessRoute. rewrite !List.existsb_exists.
  intros (item & Hin & Hprefix). exists item. split; [done|].
  by apply prefix_app.
Qed.

Lemma canAccessRoute_extension_witness :
  DashboardNavigation.canAccessRoute "/orders" "waiter" = true
  /\ DashboardNavigation.canAccessRoute "/orders/0000000000000000000000b1"
       "waiter" = true
  /\ DashboardNavigation.canAccessRoute "/orders-archive" "waiter" = true.
Proof.
  assert (DashboardNavigation.canAccessRoute "/orders" "waiter" = true)
    as Hbase by reflexivity.
  split; [done|]. split.
  - apply (canAccessRoute_extension "/orders" "/0000000000000000000000b1" _ Hbase).
  - apply (canAccessRoute_extension "/orders" "-archive" _ Hbase).
Defined.

(** ** api: what the order routes keep *)

Lemma withStatus_same order :
  Api.withStatus order (Order.status order) (Order.updatedAt order) = order.
Proof. by destruct order. Qed.

Lemma handle_keeps db req id order :
  orders db !! id = Some order ->
  exists status date,
    orders (Api.handle db req) !! id = Some (Api.withStatus order status date).
Proof.
  intros Hstored.
  assert (exists status date,
             orders db !! id = Some (Api.withStatus order status date))
    as Hsame by (do 2 eexists; by rewrite withStatus_same).
  destruct req as [env reqUser body|env reqUser oid status|menu];
    [by rewrite handle_PostOrder | | done].
  cbn [Api.handle].
  destruct (Api.patchOrderStatus db env reqUser oid status)
    as [[updated|err] db'] eqn:Hpatch.
  - apply patchOrderStatus_Success in Hpatch
      as (_ & orderId & found & newStatus & _ & _ & _ & _ & Hfound & -> & ->).
    cbn. destruct (decide (orderId = id)) as [->|Hother].
    + rewrite lookup_insert_eq. do 2 eexists. repeat f_equal. congruence.
    + by rewrite lookup_insert_ne.
  - by apply patchOrderStatus_Failed in Hpatch as ->.
Qed.

(** X9. No sequence of requests deletes an order or rewrites what it was
    created with: an order that is stored is still stored under the same
    id after any further order creations, status updates and menu writes,
    and differs from what it was in its status and its update date at
    most. *)
Theorem orders_persist db history id order :
  orders db !! id = Some order ->
  exists status date,
    orders (List.fold_left Api.handle history db) !! id
    = Some (Api.withStatus order status date).
Proof.
  revert db order. induction history as [|req rest IH]; intros db order Hstored.
  - do 2 eexists. cbn. by rewrite withStatus_same.
  - cbn [List.fold_left].
    destruct (handle_keeps db req id order Hstored) as (s & d & Hnext).
    destruct (IH _ _ Hnext) as (s' & d' & Hend).
    by exists s', d'.
Qed.

Lemma orders_persist_witness :
  exists status date,
    orders Sample.endOfDay !! 177%N
    = Some (Api.withStatus (Sample.order pending) status date).
Proof.
  apply (orders_persist (Sample.dbWith pending) Sample.history 177%N
           (Sample.order pending)).
  reflexivity.
Defined.

(** ** api: what order creation stores *)

Lemma handle_ids db req id :
  is_Some (orders (Api.handle db req) !! id) <-> is_Some (orders db !! id).
Proof.
  destruct req as [env reqUser body|env reqUser oid status|menu];
    [by rewrite handle_PostOrder | | done].
  cbn [Api.handle].
  destruct (Api.patchOrderStatus db env reqUser oid status)
    as [[updated|err] db'] eqn:Hpatch.
  - apply patchOrderStatus_Success in Hpatch
      as (_ & orderId & found & newStatus & _ & _ & _ & _ & Hfound & -> & ->).
    cbn. destruct (decide (orderId = id)) as [->|Hother].
    + rewrite lookup_insert_eq, Hfound. split; by eexists.
    + by rewrite lookup_insert_ne.
  - by apply patchOrderStatus_Failed in Hpatch as ->.
Qed.

(** X10. [POST /orders] stores no order. Every request to it is refused
    and leaves the database as it was; the request that gets through
    [authorize], through the request schema and, its lines referring to
    available menu items, through the controller's loop is refused with
    400 by the validation that [save()] starts with, the document having
    no [orderNumber] until the [pre('save')] hook that comes after. So the
    ids under which orders are stored are the same after any sequence of
    requests as before it. *)
Theorem postOrder_stores_nothing db env reqUser body :
  (exists err, Api.postOrder db env reqUser body = (Api.Failed err, db))
  /\ (Api.authorize [VIEW_ORDERS] reqUser = None ->
      Api.createOrderSchema body = [] ->
      Forall (Totals.orderable db) (Api.CreateOrderRequest.items body) ->
      (exists order,
          Api.newOrder db env reqUser body = Api.Success order
          /\ Order.orderNumber order = None
          /\ orderSchema order = false)
      /\ Api.postOrder db env reqUser body
         = (Api.Failed Api.MongooseValidationError, db)
      /\ Api.errorHandler Api.MongooseValidationError = 400%nat)
  /\ (forall history id,
        is_Some (orders (List.fold_left Api.handle history db) !! id)
        <-> is_Some (orders db !! id)).
Proof.
  split; [apply postOrder_refused|]. split.
  - intros Hauth Hvalid Hall.
    destruct (newOrder_orderable db env reqUser body Hall) as [order Horder].
    split; [exists order; split; [done|]; by eapply newOrder_orderSchema|].
    split; [|done].
    unfold Api.postOrder. by rewrite Hauth, Hvalid, createOrder_refused, Horder.
  - intros history. revert db.
    induction history as [|req rest IH]; intros db id; [done|].
    cbn [List.fold_left]. by rewrite IH, handle_ids.
Qed.

(** Table 5 asks for two burgers and a soda, both on the menu, and is
    answered 400; the collection with the order of table 5 in it holds
    that order and no other at the end of the day. *)
Lemma postOrder_stores_nothing_witness :
  Api.postOrder Sample.emptyDb Sample.atCreation (Some Sample.theWaiter)
    Sample.table5
  = (Api.Failed Api.MongooseValidationError, Sample.emptyDb)
  /\ (forall id, is_Some (orders Sample.endOfDay !! id) <-> id = 177%N).
Proof.
  destruct (postOrder_stores_nothing Sample.emptyDb Sample.atCreation
              (Some Sample.theWaiter) Sample.table5) as (_ & Hvalidation & _).
  destruct (postOrder_stores_nothing (Sample.dbWith pending) Sample.atCreation
              None Sample.table5) as (_ & _ & Hids).
  split.
  - apply Hvalidation; [reflexivity | reflexivity|].
    repeat constructor; eexists; split; reflexivity.
  - intros id. unfold Sample.endOfDay. rewrite Hids. cbn.
    rewrite lookup_insert. case_decide; [by split; [|eexists]|].
    rewrite lookup_empty. split; [by intros [? ?] | congruence].
Defined.




(** ** api: reading orders back *)

Lemma getOrder_stored users db viewer r id orderId order :
  User.role viewer = roleKey r ->
  parseObjectId id = Some orderId ->
  orders db !! orderId = Some order ->
  Routes.getOrder users db (Some viewer) id
  = Routes.Success (Routes.populateCreatedBy users order).
Proof.
  intros Hrole Hid Hstored. unfold Routes.getOrder, Routes.getOrderById.
  rewrite (authorize_VIEW_ORDERS _ _ Hrole).
  assert (Api.zObjectId Api.params_id id = []) as ->
    by (apply zObjectId_nil; by eexists).
  by rewrite Hid, Hstored.
Qed.

(** X12. A status update can be read back: after
    [PATCH /orders/:id/status] has returned an order, [GET /orders/:id]
    returns to a user of any role, for the same id string, that order with
    [createdBy] populated. The two responses agree on every other path;
    where the first has the id of the creator, the second has the name and
    the email of the user with that id, and [null] when there is no such
    user. *)
Theorem getOrder_after_write users db env reqUser viewer r id status order db' :
  User.role viewer = roleKey r ->
  Api.patchOrderStatus db env reqUser id status = (Api.Success order, db') ->
  exists read,
    Routes.getOrder users db' (Some viewer) id = Routes.Success read
    /\ Routes.PopulatedOrder._id read = Order._id order
    /\ Routes.PopulatedOrder.orderNumber read = Order.orderNumber order
    /\ Routes.PopulatedOrder.tableNumber read = Order.tableNumber order
    /\ Routes.PopulatedOrder.items read = Order.items order
    /\ Routes.PopulatedOrder.status read = Order.status order
    /\ Routes.PopulatedOrder.total read = Order.total order
    /\ Routes.PopulatedOrder.customerName read = Order.customerName order
    /\ Routes.PopulatedOrder.createdAt read = Order.createdAt order
    /\ Routes.PopulatedOrder.updatedAt read = Order.updatedAt order
    /\ match Order.createdBy order with
       | None => Routes.PopulatedOrder.createdBy read = Routes.absent
       | Some userId =>
           match users !! userId with
           | None => Routes.PopulatedOrder.createdBy read = Routes.null
           | Some user =>
               exists creator,
                 Routes.PopulatedOrder.createdBy read
                 = Routes.populated creator
                 /\ Routes.Creator.name creator = User.name user
                 /\ Routes.Creator.email creator = User.email user
           end
       end.
Proof.
  intros Hrole Hpatch.
  apply patchOrderStatus_Success in Hpatch
    as (_ & orderId & found & newStatus & _ & _ & Hid & _ & _ & -> & ->).
  eexists. split.
  { apply (getOrder_stored _ _ _ r _ orderId); try done.
    cbn. apply lookup_insert_eq. }
  repeat (split; [done|]). cbn.
  destruct (Order.createdBy found) as [userId|]; [|done].
  destruct (users !! userId) as [user|]; [|done]. by eexists.
Qed.

(** The chef starts the order of table 5, which the waiter created, and
    the waiter reads it back, under the id in capitals too; the order of
    table 7 was created by a user who is no longer there. *)
Lemma getOrder_after_write_witness :
  (exists read,
      Routes.getOrder Staff.users Sample.chefStarts.2 (Some Sample.theWaiter)
        "0000000000000000000000B1"
      = Routes.Success read
      /\ Routes.PopulatedOrder.status read = preparing
      /\ Routes.PopulatedOrder.total read = 25%float
      /\ Routes.PopulatedOrder.createdBy read
         = Routes.populated
             {| Routes.Creator._id := 4%N;
                Routes.Creator.name := "waiter";
                Routes.Creator.email := "waiter@restaurant.com" |})
  /\ (exists read,
        Routes.getOrder Staff.users
          (Api.patchOrderStatus Busy.twoOrders Sample.later
             (Some Sample.theChef) Busy.secondId "ready").2
          (Some Sample.theWaiter) Busy.secondId
        = Routes.Success read
        /\ Routes.PopulatedOrder.status read = ready
        /\ Routes.PopulatedOrder.createdBy read = Routes.null).
Proof.
  split.
  - destruct (getOrder_after_write Staff.users (Sample.dbWith pending)
                Sample.later (Some Sample.theChef) Sample.theWaiter waiter
                "0000000000000000000000B1" "preparing"
                (Api.withStatus (Sample.order pending) preparing 2000)
                Sample.chefStarts.2 eq_refl eq_refl)
      as (read & Hread & _ & _ & _ & _ & Hstatus & Htotal & _ & _ & _ & Hby).
    exists read. split; [exact Hread|]. split; [exact Hstatus|].
    split; [exact Htotal|].
    injection Hread as <-. reflexivity.
  - destruct (getOrder_after_write Staff.users Busy.twoOrders
                Sample.later (Some Sample.theChef) Sample.theWaiter waiter
                Busy.secondId "ready"
                (Api.withStatus Busy.table7 ready 2000)
                (Api.patchOrderStatus Busy.twoOrders Sample.later
                   (Some Sample.theChef) Busy.secondId "ready").2
                eq_refl eq_refl)
      as (read & Hread & _ & _ & _ & _ & Hstatus & _ & _ & _ & _ & Hby).
    exists read. split; [exact Hread|]. split; [exact Hstatus|]. exact Hby.
Defined.

(** ** api: the menu routes and the user routes *)

Lemma authorize_owner_only permission user r :
  permission = MANAGE_MENU \/ permission = MANAGE_STAFF ->
  User.role user = roleKey r ->
  Api.authorize [permission] (Some user)
  = if bool_decide (r = owner) then None
    else Some (Api.Forbidden [permission]).
Proof.
  intros Hpermission Hrole. rewrite (authorize_roleKey _ _ r Hrole).
  destruct Hpermission as [-> | ->]; by destruct r.
Qed.

(** X13. Of the four roles only the owner is let through to the routes
    that change the menu and to the user routes: a manager, a chef or a
    waiter is refused with 403 by [PATCH /menu/:id/toggle],
    [DELETE /menu/:id] and [PATCH /users/:id/status], and nothing is
    written. *)
Theorem owner_only_routes db env users decoded user r id isActive :
  User.role user = roleKey r ->
  r <> owner ->
  Routes.authenticate users decoded = inr user ->
  Routes.patchToggle db env (Some user) id
  = (Routes.Failed (Routes.Thrown (Api.Forbidden [MANAGE_MENU])), db)
  /\ Routes.deleteMenuItemRoute db (Some user) id
     = (Routes.Failed (Routes.Thrown (Api.Forbidden [MANAGE_MENU])), db)
  /\ Routes.patchUserStatus users decoded id isActive
     = (Routes.Failed (Routes.Thrown (Api.Forbidden [MANAGE_STAFF])), users)
  /\ Routes.status (Routes.Thrown (Api.Forbidden [MANAGE_STAFF])) = 403%nat.
Proof.
  intros Hrole Hother Hauth.
  unfold Routes.patchToggle, Routes.deleteMenuItemRoute, Routes.patchUserStatus.
  rewrite Hauth.
  rewrite (authorize_owner_only MANAGE_MENU user r) by auto.
  rewrite (authorize_owner_only MANAGE_STAFF user r) by auto.
  by rewrite bool_decide_eq_false_2.
Qed.

Lemma toggleAvailability_found db env user id menuItemId found :
  User.role user = roleKey owner ->
  parseObjectId id = Some menuItemId ->
  menuItems db !! menuItemId = Some found ->
  Routes.patchToggle db env (Some user) id
  = (Routes.Success (Routes.toggled found (Api.now env)),
     {| orders := orders db;
        menuItems :=
          <[menuItemId := Routes.toggled found (Api.now env)]>
            (menuItems db) |}).
Proof.
  intros Hrole Hid Hfound. unfold Routes.patchToggle, Routes.toggleAvailability.
  rewrite (authorize_owner_only MANAGE_MENU user owner) by auto.
  assert (Api.zObjectId Api.params_id id = []) as ->
    by (apply zObjectId_nil; by eexists).
  by rewrite Hid, Hfound.
Qed.

(** X14. Toggling the availability of a menu item twice gives back the
    item, and with it the database, as it was but for the item's
    [updatedAt]: the first toggle flips the flag, keeps name and price and
    stamps the item with its date; the second restores the flag and stamps
    the item with its own date; neither touches an order or another menu
    item. The database is what it was exactly when the item had that last
    date before. *)
Theorem toggle_twice db env1 env2 user id menuItemId found :
  User.role user = roleKey owner ->
  parseObjectId id = Some menuItemId ->
  menuItems db !! menuItemId = Some found ->
  exists toggled db1 again db2,
    Routes.patchToggle db env1 (Some user) id = (Routes.Success toggled, db1)
    /\ MenuItem.available toggled = negb (MenuItem.available found)
    /\ MenuItem.name toggled = MenuItem.name found
    /\ MenuItem.price toggled = MenuItem.price found
    /\ MenuItem.updatedAt toggled = Api.now env1
    /\ orders db1 = orders db
    /\ (forall other, other <> menuItemId ->
                      menuItems db1 !! other = menuItems db !! other)
    /\ Routes.patchToggle db1 env2 (Some user) id = (Routes.Success again, db2)
    /\ MenuItem.available again = MenuItem.available found
    /\ MenuItem.name again = MenuItem.name found
    /\ MenuItem.price again = MenuItem.price found
    /\ MenuItem.updatedAt again = Api.now env2
    /\ orders db2 = orders db
    /\ menuItems db2 = <[menuItemId := again]> (menuItems db)
    /\ (db2 = db <-> MenuItem.updatedAt found = Api.now env2).
Proof.
  intros Hrole Hid Hfound. eexists _, _, _, _.
  split; [by apply toggleAvailability_found|].
  repeat (split; [done|]).
  split; [intros other Hother; cbn; by apply lookup_insert_ne|].
  split.
  { apply toggleAvailability_found; [done|done|]. cbn. apply lookup_insert_eq. }
  cbn. rewrite negb_involutive, insert_insert_eq.
  repeat (split; [done|]).
  destruct found as [name price available updatedAt], db as [os ms];
    cbn in *. unfold Routes.toggled. cbn. rewrite negb_involutive. split.
  - intros [= Hms]. apply (f_equal (lookup menuItemId)) in Hms.
    rewrite lookup_insert_eq, Hfound in Hms. congruence.
  - intros ->. by rewrite insert_id.
Qed.

(** The soup, last written at 500, is put on the menu at 2000 and taken
    off again at 3000. *)
Lemma toggle_twice_witness :
  exists toggled db1 again db2,
    Routes.patchToggle Sample.emptyDb Sample.later
      (Some (Sample.staff 1 owner)) Sample.soupId
    = (Routes.Success toggled, db1)
    /\ MenuItem.available toggled = true
    /\ MenuItem.updatedAt toggled = 2000%Z
    /\ Routes.patchToggle db1 Sample.evenLater
         (Some (Sample.staff 1 owner)) Sample.soupId
       = (Routes.Success again, db2)
    /\ MenuItem.available again = false
    /\ MenuItem.updatedAt again = 3000%Z
    /\ db2 <> Sample.emptyDb.
Proof.
  destruct (toggle_twice Sample.emptyDb Sample.later Sample.evenLater
              (Sample.staff 1 owner) Sample.soupId 163%N Sample.soup
              eq_refl eq_refl eq_refl)
    as (toggled & db1 & again & db2 & Hfirst & Hon & _ & _ & Hdate1 & _ & _
        & Hsecond & Hoff & _ & _ & Hdate2 & _ & _ & Hsame).
  exists toggled, db1, again, db2.
  repeat (split; [done|]). intros Heq. by apply Hsame in Heq.
Defined.

(** X15. Once a menu item has been toggled off, an order request that
    passes validation, refers to existing menu items only and has a line
    for that item is refused as unavailable, and stores nothing. *)
Theorem toggled_off_not_orderable
    db env0 owner_ id menuItemId found toggled db1 env user r body :
  User.role owner_ = roleKey owner ->
  parseObjectId id = Some menuItemId ->
  menuItems db !! menuItemId = Some found ->
  MenuItem.available found = true ->
  Routes.patchToggle db env0 (Some owner_) id = (Routes.Success toggled, db1) ->
  User.role user = roleKey r ->
  Api.createOrderSchema body = [] ->
  Forall (fun line => is_Some (Totals.referenced db1 line))
    (Api.CreateOrderRequest.items body) ->
  Exists (fun line => parseObjectId (Api.CreateOrderItem.menuItemId line)
                      = Some menuItemId)
    (Api.CreateOrderRequest.items body) ->
  exists name,
    Api.postOrder db1 env (Some user) body
    = (Api.Failed (Api.MenuItemUnavailable name), db1).
Proof.
  intros Howner Hid Hfound Havailable Htoggle Hrole Hvalid Hall Hline.
  rewrite (toggleAvailability_found _ _ _ _ _ _ Howner Hid Hfound) in Htoggle.
  injection Htoggle as <- <-.
  assert (Exists (fun line => exists menuItem,
                      Totals.referenced
                        {| orders := orders db;
                           menuItems :=
                             <[menuItemId :=
                                 Routes.toggled found (Api.now env0)]>
                               (menuItems db) |} line = Some menuItem
                      /\ MenuItem.available menuItem = false)
            (Api.CreateOrderRequest.items body)) as Hoff.
  { eapply Exists_impl; [exact Hline|]. intros line Hrefers. eexists.
    unfold Totals.referenced. rewrite Hrefers. cbn.
    rewrite lookup_insert_eq. split; [done|]. cbn. by rewrite Havailable. }
  destruct (createOrderLoop_unavailable _ _ 0%float [] Hall Hoff)
    as (line & menuItem & _ & _ & _ & Hloop).
  exists (MenuItem.name menuItem).
  by apply (postOrder_loop_Failed _ _ _ r).
Qed.

Lemma toggled_off_not_orderable_witness :
  exists name,
    Api.postOrder
      (Routes.patchToggle Sample.emptyDb Sample.atCreation
         (Some (Sample.staff 1 owner)) Sample.sodaId).2
      Sample.later (Some Sample.theWaiter) Sample.table5
    = (Api.Failed (Api.MenuItemUnavailable name),
       (Routes.patchToggle Sample.emptyDb Sample.atCreation
          (Some (Sample.staff 1 owner)) Sample.sodaId).2).
Proof.
  eapply (toggled_off_not_orderable Sample.emptyDb Sample.atCreation
            (Sample.staff 1 owner)
            Sample.sodaId 162%N Sample.soda _ _ Sample.later
            Sample.theWaiter waiter Sample.table5);
    try reflexivity.
  - repeat constructor; eexists; reflexivity.
  - apply Exists_cons_tl, Exists_cons_hd. reflexivity.
Defined.

(** The manager, whom the comment on the menu routes names beside the
    owner, is refused. *)
Lemma owner_only_routes_witness :
  Routes.patchToggle Sample.emptyDb Sample.later (Some (Sample.staff 2 manager))
    Sample.soupId
  = (Routes.Failed (Routes.Thrown (Api.Forbidden [MANAGE_MENU])), Sample.emptyDb)
  /\ Routes.deleteMenuItemRoute Sample.emptyDb (Some (Sample.staff 2 manager))
       Sample.soupId
     = (Routes.Failed (Routes.Thrown (Api.Forbidden [MANAGE_MENU])),
        Sample.emptyDb)
  /\ Routes.patchUserStatus Staff.users (Some Staff.managerId) Staff.chefId false
     = (Routes.Failed (Routes.Thrown (Api.Forbidden [MANAGE_STAFF])),
        Staff.users)
  /\ Routes.status (Routes.Thrown (Api.Forbidden [MANAGE_STAFF])) = 403%nat.
Proof.
  assert (manager <> owner) as Hmanager by discriminate.
  destruct (owner_only_routes Sample.emptyDb Sample.later Staff.users
              (Some Staff.managerId)
              (Sample.staff 2 manager) manager Sample.soupId false
              eq_refl Hmanager eq_refl) as (Htoggle & Hdelete & _ & Hstatus).
  destruct (owner_only_routes Sample.emptyDb Sample.later Staff.users
              (Some Staff.managerId)
              (Sample.staff 2 manager) manager Staff.chefId false
              eq_refl Hmanager eq_refl) as (_ & _ & Husers & _).
  by repeat split.
Defined.

(** X16. Deleting a menu item removes it from the menu and from nothing
    else: the orders, which carry its name and price, and the other menu
    items stay as they are. Afterwards the item cannot be read or deleted
    again (404), and an order request that passes validation and whose
    first line refers to it is refused with 404 and stores nothing. *)
Theorem deleted_item_gone db owner_ id menuItemId found :
  User.role owner_ = roleKey owner ->
  parseObjectId id = Some menuItemId ->
  menuItems db !! menuItemId = Some found ->
  exists db1,
    Routes.deleteMenuItemRoute db (Some owner_) id = (Routes.Success (), db1)
    /\ orders db1 = orders db
    /\ (forall other, other <> menuItemId ->
                      menuItems db1 !! other = menuItems db !! other)
    /\ Routes.getMenuItem db1 id
       = Routes.Failed (Routes.NotFound "Menu item not found")
    /\ Routes.deleteMenuItemRoute db1 (Some owner_) id
       = (Routes.Failed (Routes.NotFound "Menu item not found"), db1)
    /\ (forall env user r body first rest,
          User.role user = roleKey r ->
          Api.createOrderSchema body = [] ->
          Api.CreateOrderRequest.items body = first :: rest ->
          parseObjectId (Api.CreateOrderItem.menuItemId first)
          = Some menuItemId ->
          Api.postOrder db1 env (Some user) body
          = (Api.Failed
               (Api.MenuItemNotFound (Api.CreateOrderItem.menuItemId first)),
             db1)).
Proof.
  intros Howner Hid Hfound.
  assert (Api.zObjectId Api.params_id id = []) as Hzod
    by (apply zObjectId_nil; by eexists).
  eexists. split.
  { unfold Routes.deleteMenuItemRoute, Routes.deleteMenuItem.
    rewrite (authorize_owner_only MANAGE_MENU owner_ owner) by auto.
    by rewrite Hzod, Hid, Hfound. }
  split; [done|].
  split; [intros other Hother; cbn; by apply lookup_delete_ne|].
  split.
  { unfold Routes.getMenuItem, Routes.getMenuItemById.
    rewrite Hzod, Hid. cbn. by rewrite lookup_delete_eq. }
  split.
  { unfold Routes.deleteMenuItemRoute, Routes.deleteMenuItem.
    rewrite (authorize_owner_only MANAGE_MENU owner_ owner) by auto.
    rewrite Hzod, Hid. cbn. by rewrite lookup_delete_eq. }
  intros env user r body first rest Hrole Hvalid Hitems Hfirst.
  apply (postOrder_loop_Failed _ _ _ r); [done|done|].
  rewrite Hitems. cbn [Api.createOrderLoop]. rewrite Hfirst. cbn.
  by rewrite lookup_delete_eq.
Qed.

Lemma deleted_item_gone_witness :
  exists db1,
    Routes.deleteMenuItemRoute (Sample.dbWith pending)
      (Some (Sample.staff 1 owner)) Sample.burgerId
    = (Routes.Success (), db1)
    /\ orders db1 !! 177%N = Some (Sample.order pending)
    /\ Routes.getMenuItem db1 Sample.burgerId
       = Routes.Failed (Routes.NotFound "Menu item not found")
    /\ Api.postOrder db1 Sample.later (Some Sample.theWaiter) Sample.table5
       = (Api.Failed (Api.MenuItemNotFound Sample.burgerId), db1).
Proof.
  destruct (deleted_item_gone (Sample.dbWith pending) (Sample.staff 1 owner)
              Sample.burgerId 161%N Sample.burger eq_refl eq_refl eq_refl)
    as (db1 & Hdelete & Horders & _ & Hread & _ & Hpost).
  exists db1. split; [exact Hdelete|]. split; [by rewrite Horders|].
  split; [exact Hread|].
  apply (Hpost Sample.later Sample.theWaiter waiter Sample.table5
           (Sample.line Sample.burgerId 2) [Sample.line Sample.sodaId 1]);
    reflexivity.
Defined.



(** ** api: pages of orders *)

Lemma ceilDiv_bounds total limit :
  (0 < limit)%Z ->
  ((Routes.ceilDiv total limit - 1) * limit < total
   /\ total <= Routes.ceilDiv total limit * limit)%Z.
Proof.
  intros Hlimit. unfold Routes.ceilDiv.
  pose proof (Z.div_mod (- total) limit ltac:(lia)) as Hdiv.
  pose proof (Z.mod_pos_bound (- total) limit Hlimit) as Hmod.
  nia.
Qed.

Lemma getOrders_page found page limit :
  (1 <= page)%Z -> (1 <= limit)%Z ->
  Routes.getOrders found (Some page) (Some limit)
  = Routes.Success
      {| Routes.pageOrders :=
           take (Z.to_nat limit) (drop (Z.to_nat ((page - 1) * limit)) found);
         Routes.pagination :=
           {| Routes.page := page;
              Routes.limit := limit;
              Routes.totalCount := Z.of_nat (List.length found);
              Routes.totalPages :=
                Routes.ceilDiv (Z.of_nat (List.length found)) limit;
              Routes.hasNextPage :=
                (page <? Routes.ceilDiv (Z.of_nat (List.length found)) limit)%Z;
              Routes.hasPrevPage := (1 <? page)%Z |} |}.
Proof.
  intros Hpage Hlimit. unfold Routes.getOrders.
  assert (Routes.orDefault (Some page) 1 = page) as ->
    by (destruct page; done || lia).
  assert (Routes.orDefault (Some limit) 10 = limit) as ->
    by (destruct limit; done || lia).
  assert (((page - 1) * limit <? 0)%Z = false) as -> by (apply Z.ltb_ge; nia).
  by rewrite Z.abs_eq by lia.
Qed.

(** X18. For a page number and a page size of at least 1, [getOrders]
    returns the orders of that page, at most a page size of them; it
    reports a next page exactly when orders remain after this page, a
    previous page exactly when the page is not the first, and its page is
    empty exactly when the page lies beyond the reported number of
    pages. *)
Theorem getOrders_pagination found page limit :
  (1 <= page)%Z -> (1 <= limit)%Z ->
  exists result,
    Routes.getOrders found (Some page) (Some limit) = Routes.Success result
    /\ Routes.pageOrders result
       = take (Z.to_nat limit) (drop (Z.to_nat ((page - 1) * limit)) found)
    /\ (List.length (Routes.pageOrders result) <= Z.to_nat limit)%nat
    /\ (Routes.hasNextPage (Routes.pagination result) = true
        <-> drop (Z.to_nat (page * limit)) found <> [])
    /\ (Routes.hasPrevPage (Routes.pagination result) = true <-> (1 < page)%Z)
    /\ (Routes.pageOrders result = []
        <-> (Routes.totalPages (Routes.pagination result) < page)%Z).
Proof.
  intros Hpage Hlimit. eexists. split; [by apply getOrders_page|]. cbn.
  pose proof (ceilDiv_bounds (Z.of_nat (List.length found)) limit ltac:(lia))
    as [Hlow Hhigh].
  assert (forall n (l : list Order.t), drop n l = [] <-> (List.length l <= n)%nat)
    as Hdrop.
  { intros n l. split; [|apply drop_ge].
    intros Hnil. apply (f_equal List.length) in Hnil.
    rewrite length_drop in Hnil. cbn in Hnil. lia. }
  split; [done|]. split; [rewrite length_take; lia|].
  split; [|split].
  - rewrite Z.ltb_lt, Hdrop. split; intros H; nia.
  - apply Z.ltb_lt.
  - split.
    + intros Hnil. apply (f_equal List.length) in Hnil.
      rewrite length_take, length_drop in Hnil. cbn in Hnil. nia.
    + intros Hbeyond. rewrite (proj2 (Hdrop _ _)); [by rewrite take_nil | nia].
Qed.

Lemma getOrders_pagination_witness :
  exists result,
    Routes.getOrders
      [Sample.order ready; Sample.order preparing; Sample.order pending]
      (Some 2%Z) (Some 2%Z)
    = Routes.Success result
    /\ Routes.pageOrders result = [Sample.order pending]
    /\ Routes.hasNextPage (Routes.pagination result) = false
    /\ Routes.hasPrevPage (Routes.pagination result) = true
    /\ Routes.totalPages (Routes.pagination result) = 2%Z.
Proof.
  destruct (getOrders_pagination
              [Sample.order ready; Sample.order preparing; Sample.order pending]
              2%Z 2%Z ltac:(lia) ltac:(lia))
    as (result & Hresult & Hpage & _).
  exists result. split; [exact Hresult|]. split; [exact Hpage|].
  injection Hresult as <-. by repeat split.
Defined.

Lemma chunks_cover {A} (size : nat) :
  (1 <= size)%nat ->
  forall n start (l : list A),
    (List.length l <= n * size)%nat ->
    List.flat_map (fun p => take size (drop ((p - start) * size) l))
      (List.seq start n)
    = l.
Proof.
  intros Hsize. induction n as [|n IH]; intros start l Hlength.
  - cbn. destruct l; [done | cbn in Hlength; lia].
  - cbn [List.seq List.flat_map]. rewrite Nat.sub_diag. cbn [Nat.mul drop].
    transitivity (take size l ++ drop size l)%list; [|apply take_drop].
    f_equal.
    etransitivity;
      [|apply (IH (S start) (drop size l)); rewrite length_drop; lia].
    rewrite !List.flat_map_concat_map. f_equal.
    apply List.map_ext_in. intros p Hp. apply List.in_seq in Hp.
    rewrite drop_drop. do 2 f_equal. nia.
Qed.

(** X19. The pages tile the result: for a page size of at least 1, the
    orders of pages 1 to the reported number of pages, one after the
    other, are the orders that match, each once and in their order. *)
Theorem getOrders_pages_cover found limit :
  (1 <= limit)%Z ->
  List.flat_map
    (fun p =>
       match Routes.getOrders found (Some (Z.of_nat p)) (Some limit) with
       | Routes.Success result => Routes.pageOrders result
       | Routes.Failed _ => []
       end)
    (List.seq 1 (Z.to_nat (Routes.ceilDiv (Z.of_nat (List.length found)) limit)))
  = found.
Proof.
  intros Hlimit.
  pose proof (ceilDiv_bounds (Z.of_nat (List.length found)) limit ltac:(lia))
    as [_ Hhigh].
  rewrite <- (chunks_cover (Z.to_nat limit) ltac:(lia)
               (Z.to_nat (Routes.ceilDiv (Z.of_nat (List.length found)) limit))
               1 found) at 2 by nia.
  rewrite !List.flat_map_concat_map. f_equal.
  apply List.map_ext_in. intros p Hp. apply List.in_seq in Hp.
  rewrite getOrders_page by lia. cbn. do 2 f_equal. nia.
Qed.

Lemma getOrders_pages_cover_witness :
  List.flat_map
    (fun p =>
       match Routes.getOrders
               [Sample.order ready; Sample.order preparing; Sample.order pending]
               (Some (Z.of_nat p)) (Some 2%Z) with
       | Routes.Success result => Routes.pageOrders result
       | Routes.Failed _ => []
       end)
    [1; 2]%nat
  = [Sample.order ready; Sample.order preparing; Sample.order pending].
Proof.
  apply (getOrders_pages_cover
           [Sample.order ready; Sample.order preparing; Sample.order pending]
           2%Z).
  lia.
Defined.

(** ** api and rbac *)

(** X22. The API's [authorize] and the [hasAllPermissions] of the rbac
    library decide alike for every user and every list of permissions:
    the request is let through when the helper returns [true], refused
    with 403 when it returns [false], and ends in the helper's
    [TypeError] (answered 500) when the role is not in the table. *)
Theorem authorize_agrees_with_hasAllPermissions
    (requiredPermissions : list Permission) (user : User.t) :
  Api.authorize requiredPermissions (Some user)
  = match Rbac.hasAllPermissions (User.role user) requiredPermissions with
    | Js.Return true => None
    | Js.Return false => Some (Api.Forbidden requiredPermissions)
    | Js.Throw Js.TypeError => Some Api.UncaughtTypeError
    end.
Proof.
  unfold Api.authorize, Rbac.hasAllPermissions.
  by rewrite (every_ext _ (fun permission =>
                             Rbac.hasPermission (User.role user) permission)).
Qed.

(** X23. Status updates of two different orders do not interfere: served
    in either order they leave the same database, and each leaves the
    other order as it was. *)
Theorem status_updates_commute
    db env1 env2 user1 user2 r1 r2 id1 id2 orderId1 orderId2
    found1 found2 status1 status2 new1 new2 :
  User.role user1 = roleKey r1 ->
  User.role user2 = roleKey r2 ->
  parseObjectId id1 = Some orderId1 ->
  parseObjectId id2 = Some orderId2 ->
  orderId1 <> orderId2 ->
  orders db !! orderId1 = Some found1 ->
  orders db !! orderId2 = Some found2 ->
  Api.parseStatus status1 = Some new1 ->
  Api.parseStatus status2 = Some new2 ->
  (Api.patchOrderStatus
     (Api.patchOrderStatus db env1 (Some user1) id1 status1).2
     env2 (Some user2) id2 status2).2
  = (Api.patchOrderStatus
       (Api.patchOrderStatus db env2 (Some user2) id2 status2).2
       env1 (Some user1) id1 status1).2
  /\ orders (Api.patchOrderStatus db env1 (Some user1) id1 status1).2
       !! orderId2
     = Some found2.
Proof.
  intros Hrole1 Hrole2 Hid1 Hid2 Hdiff Hfound1 Hfound2 Hstatus1 Hstatus2.
  rewrite (patchOrderStatus_accepts db env1 _ _ _ _ _ _ _
             Hrole1 Hid1 Hfound1 Hstatus1).
  rewrite (patchOrderStatus_accepts db env2 _ _ _ _ _ _ _
             Hrole2 Hid2 Hfound2 Hstatus2).
  cbn [snd].
  erewrite (patchOrderStatus_accepts _ env2 _ _ _ _ found2);
    [|done|done|cbn; by rewrite lookup_insert_ne|done].
  erewrite (patchOrderStatus_accepts _ env1 _ _ _ _ found1);
    [|done|done|cbn; by rewrite lookup_insert_ne|done].
  cbn. split; [|by rewrite lookup_insert_ne].
  f_equal. by apply insert_insert_ne.
Qed.

Lemma status_updates_commute_witness :
  (Api.patchOrderStatus
     (Api.patchOrderStatus Busy.twoOrders Sample.later (Some Sample.theChef)
        Sample.orderId "preparing").2
     Sample.evenLater (Some Sample.theWaiter) Busy.secondId "cancelled").2
  = (Api.patchOrderStatus
       (Api.patchOrderStatus Busy.twoOrders Sample.evenLater
          (Some Sample.theWaiter) Busy.secondId "cancelled").2
       Sample.later (Some Sample.theChef) Sample.orderId "preparing").2.
Proof.
  apply (status_updates_commute Busy.twoOrders Sample.later Sample.evenLater
           Sample.theChef Sample.theWaiter chef waiter
           Sample.orderId Busy.secondId 177%N 178%N
           (Sample.order pending) Busy.table7 "preparing" "cancelled"
           preparing cancelled);
    first [reflexivity | discriminate].
Defined.
